(** * Usage tracker: transcript analysis, context estimate, windows, cache

    A shallow embedding of [src/tracker.py] (class [UsageTracker]) and the
    properties its specification states about it.

    Conventions of the embedding:
    - a parsed transcript line is a [json] value; Python's dynamic
      operations on it ([.get], [in], [len], [==], truthiness) are written
      out with the exceptions they raise ([result]);
    - Python floats (epoch seconds, hours) are exact rationals [Q];
    - a Python string is a string of bytes, so that [len] counts the
      characters of ASCII text;
    - the clock, the file system and the library calls the module makes
      are explicit arguments or [Section] variables. *)

From Stdlib Require Import ZArith QArith Qround String Ascii List Lia Lqa Bool Permutation.
From stdpp Require Import base strings gmap.
Import ListNotations.

Open Scope string_scope.

(** ** Python values and exceptions *)

(** What [json.loads] returns for one line. *)
#[warnings="-register-all"]
Inductive json : Type :=
| JNull
| JBool (b : bool)
| JNum (q : Q)
| JStr (s : string)
| JArr (items : list json)
| JObj (fields : list (string * json)).

(** A computation that either returns or raises; every handler in the
    module is a bare [except:], so the exception carries no payload. *)
Inductive result (A : Type) : Type :=
| Ok (a : A)
| Raised.
Arguments Ok {A} a.
Arguments Raised {A}.

Definition bind {A B : Type} (r : result A) (k : A -> result B) : result B :=
  match r with
  | Ok a => k a
  | Raised => Raised
  end.

Notation "'let*' x ':=' r 'in' k" := (bind r (fun x => k))
  (at level 10, x name, r at level 100, k at level 200).

Module Py.

(** [bool(v)]. *)
Definition truthy (v : json) : bool :=
  match v with
  | JNull => false
  | JBool b => b
  | JNum q => negb (Qeq_bool q 0)
  | JStr s => negb (String.eqb s "")
  | JArr items => match items with [] => false | _ :: _ => true end
  | JObj fields => match fields with [] => false | _ :: _ => true end
  end.

(** [v == s] for a string literal [s]. *)
Definition eq_str (v : json) (s : string) : bool :=
  match v with
  | JStr s' => String.eqb s' s
  | _ => false
  end.

Fixpoint lookup (k : string) (fields : list (string * json)) : option json :=
  match fields with
  | [] => None
  | (k', v) :: rest => if String.eqb k' k then Some v else lookup k rest
  end.

(** [d.get(k)]: only a dict has the method; [None] is [JNull]. *)
Definition get (d : json) (k : string) : result json :=
  match d with
  | JObj fields => Ok (default JNull (lookup k fields))
  | _ => Raised
  end.

(** [d.get(k, dflt)]. *)
Definition get_or (d : json) (k : string) (dflt : json) : result json :=
  match d with
  | JObj fields => Ok (default dflt (lookup k fields))
  | _ => Raised
  end.

(** [needle in hay] on strings: substring test. *)
Fixpoint contains (needle hay : string) : bool :=
  if String.prefix needle hay then true
  else match hay with
       | EmptyString => false
       | String _ hay' => contains needle hay'
       end.

(** [needle in v] for a string literal [needle]: substring of a string,
    element of a list, key of a dict; a [TypeError] on anything else. *)
Definition str_in (needle : string) (v : json) : result bool :=
  match v with
  | JStr s => Ok (contains needle s)
  | JArr items => Ok (existsb (fun x => eq_str x needle) items)
  | JObj fields => Ok (existsb (fun kv => String.eqb (fst kv) needle) fields)
  | _ => Raised
  end.

Definition is_dict (v : json) : bool :=
  match v with JObj _ => true | _ => false end.

(** [s.lower()] on ASCII letters. *)
Definition lower_ascii (c : ascii) : ascii :=
  let n := nat_of_ascii c in
  if ((65 <=? n) && (n <=? 90))%nat then ascii_of_nat (n + 32) else c.

Fixpoint lower (s : string) : string :=
  match s with
  | EmptyString => EmptyString
  | String c s' => String (lower_ascii c) (lower s')
  end.

(** [s.split(sep)[0]] for a one-character separator. *)
Fixpoint split_head (sep : ascii) (s : string) : string :=
  match s with
  | EmptyString => EmptyString
  | String c s' => if Ascii.eqb c sep then EmptyString
                   else String c (split_head sep s')
  end.

(** [s.replace(c, by)] for a one-character pattern. *)
Fixpoint replace_char (c : ascii) (by_ : string) (s : string) : string :=
  match s with
  | EmptyString => EmptyString
  | String c' s' =>
      if Ascii.eqb c' c then by_ ++ replace_char c by_ s'
      else String c' (replace_char c by_ s')
  end.

End Py.

(** ** Session Analyzer: record classification *)

Definition CMD_NAME : string := "<command-name>".
Definition CMD_STDOUT : string := "<local-command-stdout>".

(** The [for item in content] loop of [_is_command_message]. *)
Fixpoint _is_command_items (items : list json) : result bool :=
  match items with
  | [] => Ok false
  | item :: rest =>
      if Py.is_dict item then
        let* ty := Py.get item "type" in
        if Py.eq_str ty "text" then
          let* text := Py.get_or item "text" (JStr "") in
          let* a := Py.str_in CMD_NAME text in
          if a then Ok true
          else
            let* b := Py.str_in CMD_STDOUT text in
            if b then Ok true else _is_command_items rest
        else _is_command_items rest
      else _is_command_items rest
  end.

Definition _is_command_message (content : json) : result bool :=
  match content with
  | JStr s => Ok (Py.contains CMD_NAME s || Py.contains CMD_STDOUT s)
  | JArr items => _is_command_items items
  | _ => Ok false
  end.

(** The condition under which [prompts += 1] runs for a record, lines
    241-249 of [_analyze_jsonl_file]; [Raised] is caught by the per-line
    [except: continue]. *)
Definition prompt_guard (msg : json) : result bool :=
  let* ty := Py.get msg "type" in
  if negb (Py.eq_str ty "user") then Ok false else
  let* m := Py.get_or msg "message" (JObj []) in
  let* role := Py.get m "role" in
  if negb (Py.eq_str role "user") then Ok false else
  let* meta := Py.get_or msg "isMeta" (JBool false) in
  if Py.truthy meta then Ok false else
  let* ut := Py.get msg "userType" in
  if negb (Py.eq_str ut "external") then Ok false else
  Ok true.

(** Lines 246-248: the content test inside the guarded branch. *)
Definition prompt_body (msg : json) : result bool :=
  let* m := Py.get_or msg "message" (JObj []) in
  let* content := Py.get_or m "content" (JStr "") in
  if Py.truthy content then
    let* c := _is_command_message content in
    Ok (negb c)
  else Ok false.

Definition counts_as_prompt (msg : json) : result bool :=
  let* g := prompt_guard msg in
  if g then prompt_body msg else Ok false.

(** [str.lower()] exists on strings only. *)
Definition model_lower (v : json) : result string :=
  match v with
  | JStr s => Ok (Py.lower s)
  | _ => Raised
  end.

(** Which counter one record increments, lines 241-257. *)
Inductive bump : Type := BumpPrompt | BumpOpus | BumpSonnet | BumpNone.

Definition classify (msg : json) : result bump :=
  let* g := prompt_guard msg in
  if g then
    let* p := prompt_body msg in
    Ok (if p then BumpPrompt else BumpNone)
  else
    let* ty := Py.get msg "type" in
    if Py.eq_str ty "assistant" then
      let* m := Py.get_or msg "message" (JObj []) in
      let* mdl := Py.get_or m "model" (JStr "") in
      let* model := model_lower mdl in
      if Py.contains "opus" model then Ok BumpOpus
      else if Py.contains "sonnet" model then Ok BumpSonnet
      else Ok BumpNone
    else Ok BumpNone.

(** ** The [datetime] library calls

    [datetime.fromisoformat] and [datetime.timestamp] are library code;
    they are modelled on the documented grammar
    [YYYY-MM-DD[*HH[:MM[:SS]][+HH:MM[:SS]]]] (a fractional part never
    reaches the parser: [_parse_timestamp] cuts the string at the first
    dot). The local time zone, which [timestamp] applies to a naive
    value, is a fixed offset east of UTC in seconds. *)
Module Datetime.

Record t : Type := mk {
  year : Z; month : Z; day : Z;
  hour : Z; minute : Z; second : Z;
  utcoffset : option Z
}.

Definition is_leap (y : Z) : bool :=
  ((y mod 4 =? 0) && negb (y mod 100 =? 0) || (y mod 400 =? 0))%Z.

Definition days_in_month (y m : Z) : Z :=
  (if m =? 2 then (if is_leap y then 29 else 28)
   else if (m =? 4) || (m =? 6) || (m =? 9) || (m =? 11) then 30
   else 31)%Z.

(** Days from 1970-01-01 to the given proleptic Gregorian date. *)
Definition days_from_civil (y m d : Z) : Z :=
  (let y' := if m <=? 2 then y - 1 else y in
   let era := y' / 400 in
   let yoe := y' - era * 400 in
   let mp := (m + 9) mod 12 in
   let doy := (153 * mp + 2) / 5 + d - 1 in
   let doe := yoe * 365 + yoe / 4 - yoe / 100 + doy in
   era * 146097 + doe - 719468)%Z.

Definition digit (c : ascii) : option Z :=
  let n := nat_of_ascii c in
  if ((48 <=? n) && (n <=? 57))%nat then Some (Z.of_nat (n - 48)) else None.

(** Exactly [n] decimal digits. *)
Fixpoint digits (n : nat) (acc : Z) (s : string) : option (Z * string) :=
  match n with
  | O => Some (acc, s)
  | S n' =>
      match s with
      | String c s' =>
          match digit c with
          | Some d => digits n' (10 * acc + d)%Z s'
          | None => None
          end
      | EmptyString => None
      end
  end.

Definition expect (c : ascii) (s : string) : option string :=
  match s with
  | String c' s' => if Ascii.eqb c' c then Some s' else None
  | EmptyString => None
  end.

(** [HH[:MM[:SS]]], with what follows it. *)
Definition hh_mm_ss (s : string) : option (Z * Z * Z * string) :=
  '(h, s1) ← digits 2 0%Z s;
  match expect ":" s1 with
  | None => Some (h, 0%Z, 0%Z, s1)
  | Some s2 =>
      '(m, s3) ← digits 2 0%Z s2;
      match expect ":" s3 with
      | None => Some (h, m, 0%Z, s3)
      | Some s4 => '(sec, s5) ← digits 2 0%Z s4; Some (h, m, sec, s5)
      end
  end.

(** The offset [+HH:MM[:SS]] or [-HH:MM[:SS]] up to the end of the
    string, in seconds; the empty string is a naive time. *)
Definition tz (s : string) : option (option Z) :=
  match s with
  | EmptyString => Some None
  | String c s0 =>
      sign ← (if Ascii.eqb c "+" then Some 1%Z
              else if Ascii.eqb c "-" then Some (-1)%Z else None);
      '(h, s1) ← digits 2 0%Z s0;
      s2 ← expect ":" s1;
      '(m, s3) ← digits 2 0%Z s2;
      '(sec, s5) ← match expect ":" s3 with
                   | None => Some (0%Z, s3)
                   | Some s4 => digits 2 0%Z s4
                   end;
      let off := (h * 3600 + m * 60 + sec)%Z in
      if String.eqb s5 "" && (off <? 86400)%Z
      then Some (Some (sign * off)%Z) else None
  end.

Definition valid_date (y m d : Z) : bool :=
  ((1 <=? y) && (1 <=? m) && (m <=? 12) && (1 <=? d)
   && (d <=? days_in_month y m))%Z.

Definition valid_time (h m s : Z) : bool :=
  ((h <=? 23) && (m <=? 59) && (s <=? 59))%Z.

Definition fromisoformat (s : string) : option t :=
  '(y, s1) ← digits 4 0%Z s;
  s2 ← expect "-" s1;
  '(mo, s3) ← digits 2 0%Z s2;
  s4 ← expect "-" s3;
  '(d, s5) ← digits 2 0%Z s4;
  if negb (valid_date y mo d) then None else
  match s5 with
  | EmptyString => Some (mk y mo d 0 0 0 None)
  | String _ s6 =>
      '(h, mi, sec, s7) ← hh_mm_ss s6;
      off ← tz s7;
      if valid_time h mi sec then Some (mk y mo d h mi sec off) else None
  end.

(** [dt.timestamp()]; [local] is the zone of a naive value. *)
Definition timestamp (local : Z) (dt : t) : Z :=
  (days_from_civil (year dt) (month dt) (day dt) * 86400
   + hour dt * 3600 + minute dt * 60 + second dt
   - default local (utcoffset dt))%Z.

End Datetime.

(** ** Data model *)

(** The three things the module asks of a [pathlib.Path]. *)
Record Path : Type := {
  path_str : string;
  stem : string;
  parent_name : string
}.

Record SessionData : Type := {
  session_id : string;
  start_time : Q;
  end_time : Q;
  duration_hours : Q;
  prompt_count : nat;
  sonnet_responses : nat;
  opus_responses : nat;
  project : string
}.

Record ContextData : Type := {
  estimated_tokens : Z;
  context_limit : Z;
  percentage : Q;
  warning_threshold : Q
}.

Record UsageData : Type := {
  current_5h_prompts : nat;
  current_5h_start : Q;
  weekly_sonnet_hours : Q;
  weekly_opus_hours : Q;
  weekly_prompts : nat;
  weekly_start : Q;
  last_updated : Q;
  sessions : list SessionData;
  context : option ContextData
}.

(** The mutable and the time-constant fields of a [UsageTracker]. *)
Record UsageTracker : Type := {
  week_start : Q;
  cycle_5h_start : Q;
  _cache : gmap string SessionData;
  _cache_time : Q;
  cache_duration : Q
}.

(** What opening and iterating a file delivers: the lines read, each
    parsed by [json.loads] ([None] when that raises), and whether an
    error ended the read ([open] failing is no line and an error). *)
Record file_read : Type := {
  lines_read : list (option json);
  read_failed : bool
}.

Definition Qltb (a b : Q) : bool := negb (Qle_bool b a).

(** ** Timestamp Parser *)

Section Analyzer.

(** Seconds east of UTC of the machine's local zone. *)
Variable local_utc_offset : Z.

Definition _parse_timestamp_str (ts : string) : option Q :=
  if String.eqb ts "" || String.eqb ts "null" then None
  else
    let clean_ts :=
      if Py.contains "." ts then Py.split_head "." ts ++ "Z" else ts in
    dt ← Datetime.fromisoformat (Py.replace_char "Z" "+00:00" clean_ts);
    Some (inject_Z (Datetime.timestamp local_utc_offset dt)).

(** On a value that is not a string the method returns [None] as well:
    it is falsy, or [in], [split] or [replace] raises inside the [try]. *)
Definition _parse_timestamp (ts : json) : option Q :=
  match ts with
  | JStr s => _parse_timestamp_str s
  | _ => None
  end.

(** ** Session Analyzer: the scan of one file *)

Record scan : Type := {
  timestamps : list Q;
  prompts : nat;
  sonnet : nat;
  opus : nat
}.

Definition scan0 : scan :=
  {| timestamps := []; prompts := 0; sonnet := 0; opus := 0 |}.

(** Lines 236-238; the walrus tests are truthiness tests, of the field
    and of the parsed float. *)
Definition collect_timestamp (ts : json) (a : scan) : scan :=
  if Py.truthy ts then
    match _parse_timestamp ts with
    | Some epoch =>
        if Qeq_bool epoch 0 then a
        else {| timestamps := (timestamps a ++ [epoch])%list; prompts := prompts a;
                sonnet := sonnet a; opus := opus a |}
    | None => a
    end
  else a.

Definition apply_bump (b : bump) (a : scan) : scan :=
  match b with
  | BumpPrompt => {| timestamps := timestamps a; prompts := S (prompts a);
                     sonnet := sonnet a; opus := opus a |}
  | BumpOpus => {| timestamps := timestamps a; prompts := prompts a;
                   sonnet := sonnet a; opus := S (opus a) |}
  | BumpSonnet => {| timestamps := timestamps a; prompts := prompts a;
                     sonnet := S (sonnet a); opus := opus a |}
  | BumpNone => a
  end.

(** The body of the [for line in f] loop with its [except: continue]:
    what was appended before an exception stays. *)
Definition analyze_line (line : option json) (a : scan) : scan :=
  match line with
  | None => a
  | Some msg =>
      match Py.get msg "timestamp" with
      | Raised => a
      | Ok ts =>
          let a1 := collect_timestamp ts a in
          match classify msg with
          | Raised => a1
          | Ok b => apply_bump b a1
          end
      end
  end.

Definition analyze_lines (lines : list (option json)) : scan :=
  fold_left (fun a line => analyze_line line a) lines scan0.

Definition Qmin_list (x : Q) (l : list Q) : Q :=
  fold_left (fun m y => if Qle_bool y m then y else m) l x.

Definition Qmax_list (x : Q) (l : list Q) : Q :=
  fold_left (fun m y => if Qle_bool m y then y else m) l x.

(** Lines 263-283. *)
Definition summarize (jsonl_path : Path) (a : scan) : SessionData :=
  match timestamps a with
  | [] =>
      {| session_id := stem jsonl_path; start_time := 0; end_time := 0;
         duration_hours := 0; prompt_count := prompts a;
         sonnet_responses := sonnet a; opus_responses := opus a;
         project := parent_name jsonl_path |}
  | t :: ts =>
      let start := Qmin_list t ts in
      let end_ := Qmax_list t ts in
      {| session_id := stem jsonl_path; start_time := start;
         end_time := end_;
         duration_hours := ((end_ - start) / 3600)%Q;
         prompt_count := prompts a;
         sonnet_responses := sonnet a; opus_responses := opus a;
         project := parent_name jsonl_path |}
  end.

(** [_analyze_jsonl_file]. [now_check] and [now_store] are the readings
    of [time.time()] at the cache test and at the cache update, [file]
    is what reading the path delivers if it is read. *)
Definition _analyze_jsonl_file (now_check now_store : Q) (file : file_read)
    (jsonl_path : Path) (self : UsageTracker) : SessionData * UsageTracker :=
  let cache_key := path_str jsonl_path in
  let recompute :=
    let session := summarize jsonl_path (analyze_lines (lines_read file)) in
    (session,
     {| week_start := week_start self;
        cycle_5h_start := cycle_5h_start self;
        _cache := <[cache_key := session]> (_cache self);
        _cache_time := now_store;
        cache_duration := cache_duration self |}) in
  match _cache self !! cache_key with
  | Some cached =>
      if Qltb (now_check - _cache_time self)%Q (cache_duration self)
      then (cached, self)
      else recompute
  | None => recompute
  end.

End Analyzer.

(** ** Usage Aggregator *)

(** One pass of the inner loop of [get_all_sessions] over a transcript:
    the path, the two clock readings of its analysis and what reading the
    file delivers at that moment. *)
Record visit : Type := {
  v_path : Path;
  v_now_check : Q;
  v_now_store : Q;
  v_file : file_read
}.

(** An entry of [claude_projects.iterdir()] with its [*.jsonl] files. *)
Record project_entry : Type := {
  is_dir : bool;
  jsonl_files : list visit
}.

Section Aggregator.

Variable local_utc_offset : Z.

(** Python's [round(x, ndigits)] on floats. *)
Variable py_round : nat -> Q -> Q.

Definition visit_file (st : list SessionData * UsageTracker) (v : visit)
    : list SessionData * UsageTracker :=
  let '(session, self') :=
    _analyze_jsonl_file local_utc_offset (v_now_check v) (v_now_store v)
      (v_file v) (v_path v) (snd st) in
  if Qltb 0 (duration_hours session)
  then ((fst st ++ [session])%list, self')
  else (fst st, self').

Definition visit_project (st : list SessionData * UsageTracker)
    (p : project_entry) : list SessionData * UsageTracker :=
  if is_dir p then fold_left visit_file (jsonl_files p) st else st.

(** The loops of [get_all_sessions] over a storage root whose listing
    completes: [projects] is [None] when [claude_projects] does not exist
    and otherwise what [iterdir()], [is_dir()] and [glob()] deliver. The
    listing that raises is in [get_all_sessions_scan] below. *)
Definition get_all_sessions (projects : option (list project_entry))
    (self : UsageTracker) : list SessionData * UsageTracker :=
  match projects with
  | None => ([], self)
  | Some ps => fold_left visit_project ps ([], self)
  end.

Definition sum_prompts (l : list SessionData) : nat :=
  fold_left (fun n s => n + prompt_count s)%nat l 0%nat.

Definition Qnat (n : nat) : Q := inject_Z (Z.of_nat n).

(** One turn of the loop of lines 326-332 on the two running totals. *)
Definition add_hours (acc : Q * Q) (session : SessionData) : Q * Q :=
  let total_responses :=
    (sonnet_responses session + opus_responses session)%nat in
  if (0 <? total_responses)%nat then
    let sonnet_ratio :=
      (Qnat (sonnet_responses session) / Qnat total_responses)%Q in
    let opus_ratio :=
      (Qnat (opus_responses session) / Qnat total_responses)%Q in
    ((fst acc + duration_hours session * sonnet_ratio)%Q,
     (snd acc + duration_hours session * opus_ratio)%Q)
  else acc.

Definition weekly_hours (week_sessions : list SessionData) : Q * Q :=
  fold_left add_hours week_sessions (0%Q, 0%Q).

Definition week_filter (self : UsageTracker) (l : list SessionData) :=
  List.filter (fun s => Qle_bool (week_start self) (start_time s)) l.

Definition cycle_filter (self : UsageTracker) (l : list SessionData) :=
  List.filter (fun s => Qle_bool (cycle_5h_start self) (start_time s)) l.

(** [calculate_usage] after [get_all_sessions] returned [all]; the
    context and the clock reading are those of lines 335 and 344. *)
Definition usage_of (self : UsageTracker) (all : list SessionData)
    (context_data : option ContextData) (now : Q) : UsageData :=
  let week_sessions := week_filter self all in
  let cycle_sessions := cycle_filter self all in
  let hours := weekly_hours week_sessions in
  {| current_5h_prompts := sum_prompts cycle_sessions;
     current_5h_start := cycle_5h_start self;
     weekly_sonnet_hours := py_round 2 (fst hours);
     weekly_opus_hours := py_round 2 (snd hours);
     weekly_prompts := sum_prompts week_sessions;
     weekly_start := week_start self;
     last_updated := now;
     sessions := week_sessions;
     context := context_data |}.

(** [calculate_usage] when the listing of line 310 completes; with the
    listing that raises it is [calculate_usage_scan] below. *)
Definition calculate_usage (projects : option (list project_entry))
    (context_result : result (option ContextData)) (now : Q)
    (self : UsageTracker) : result (UsageData * UsageTracker) :=
  let '(all, self') := get_all_sessions projects self in
  let* context_data := context_result in
  Ok (usage_of self' all context_data now, self').

End Aggregator.

(** *** The listing that raises *)

(** [exists()], [iterdir()], [is_dir()] and [glob()] of lines 295-301
    are under no handler. What the loops of [get_all_sessions] get to see
    of the storage root: the entries and transcripts reached before the
    loops ended or one of these calls raised, and whether one raised. *)
Record listing : Type := {
  listed : option (list project_entry);
  listing_failed : bool
}.

(** [get_all_sessions] on such a listing: every transcript reached is
    analysed and stored in the cache; when a file-system call raises, the
    exception leaves the function and the list built so far is lost. *)
Definition get_all_sessions_scan (local_utc_offset : Z) (l : listing)
    (self : UsageTracker) : result (list SessionData) * UsageTracker :=
  let r := get_all_sessions local_utc_offset (listed l) self in
  (if listing_failed l then Raised else Ok (fst r), snd r).

(** [calculate_usage]: line 310 first, so that [estimate_context_usage],
    whose outcome is [context_result], is only reached when the listing
    has completed. *)
Definition calculate_usage_scan (local_utc_offset : Z)
    (py_round : nat -> Q -> Q) (l : listing)
    (context_result : result (option ContextData)) (now : Q)
    (self : UsageTracker) : result UsageData * UsageTracker :=
  let '(sessions, self') := get_all_sessions_scan local_utc_offset l self in
  (let* all := sessions in
   let* context_data := context_result in
   Ok (usage_of py_round self' all context_data now),
   self').

(** ** Window boundaries *)

(** A naive local [datetime]: the day counted from 1970-01-01 of the local
    calendar and the time of day in seconds, microseconds included. *)
Record local_datetime : Type := {
  day_number : Z;
  seconds_of_day : Q
}.

(** 1970-01-01 was a Thursday; Monday is 0. *)
Definition weekday (d : local_datetime) : Z := ((day_number d + 3) mod 7)%Z.

Definition minus_days (d : local_datetime) (n : Z) : local_datetime :=
  {| day_number := (day_number d - n)%Z; seconds_of_day := seconds_of_day d |}.

Definition at_midnight (d : local_datetime) : local_datetime :=
  {| day_number := day_number d; seconds_of_day := 0 |}.

Definition local_timestamp (local_utc_offset : Z) (d : local_datetime) : Q :=
  (inject_Z (day_number d * 86400 - local_utc_offset) + seconds_of_day d)%Q.

Definition _get_week_start (local_utc_offset : Z) (now : local_datetime) : Q :=
  let days_since_monday := weekday now in
  let monday := minus_days now days_since_monday in
  let monday_midnight := at_midnight monday in
  local_timestamp local_utc_offset monday_midnight.

(** [int(x)] on a float: truncation toward zero. *)
Definition py_int (x : Q) : Z :=
  if Qle_bool 0 x then Qfloor x else Qceiling x.

Definition _get_5h_cycle_start (now : Q) : Q :=
  let hours_since_epoch := (now / 3600)%Q in
  let cycle_number := py_int (hours_since_epoch / 5)%Q in
  inject_Z (cycle_number * 5 * 3600).

(** [__init__]: the two boundaries are taken once, the cache is empty. *)
Definition init (local_utc_offset : Z) (now_local : local_datetime) (now : Q)
    : UsageTracker :=
  {| week_start := _get_week_start local_utc_offset now_local;
     cycle_5h_start := _get_5h_cycle_start now;
     _cache := ∅;
     _cache_time := 0;
     cache_duration := 5 |}.

(** ** Context Estimator *)

Definition CONTEXT_LIMIT : Z := 200000.
Definition WARNING_THRESHOLD : Q := 45.

(** [len(v)]: defined on strings, lists and dicts. *)
Definition py_len (v : json) : result nat :=
  match v with
  | JStr s => Ok (String.length s)
  | JArr items => Ok (List.length items)
  | JObj fields => Ok (List.length fields)
  | _ => Raised
  end.

(** The running total of [total_content_chars] together with whether an
    exception has ended the current line: what was added before it stays. *)
Definition counted : Type := (nat * bool)%type.

Definition and_then (r : counted) (k : nat -> counted) : counted :=
  if snd r then r else k (fst r).

(** [total_content_chars += len(v)]. *)
Definition add_len (v : json) (total : nat) : counted :=
  match py_len v with
  | Ok n => ((total + n)%nat, false)
  | Raised => (total, true)
  end.

(** [d.get(k)] on a value known to be a dict. *)
Definition field (item : json) (k : string) (dflt : json) : json :=
  match item with
  | JObj fields => default dflt (Py.lookup k fields)
  | _ => dflt
  end.

Section ContextEstimator.

(** [len(json.dumps(v))]. *)
Variable dumps_len : json -> nat.

(** Python's [round(x, ndigits)] on floats. *)
Variable py_round : nat -> Q -> Q.

(** Lines 169-171. *)
Fixpoint count_blocks (cbs : list json) (total : nat) : counted :=
  match cbs with
  | [] => (total, false)
  | cb :: rest =>
      let t := field cb "text" JNull in
      if Py.is_dict cb && Py.truthy t
      then and_then (add_len t total) (count_blocks rest)
      else count_blocks rest total
  end.

(** Lines 160-171 for one element of a list content. *)
Definition count_item (item : json) (total : nat) : counted :=
  if Py.is_dict item then
    let text := field item "text" (JStr "") in
    let inp := field item "input" JNull in
    let content_blocks := field item "content" JNull in
    and_then (if Py.truthy text then add_len text total else (total, false))
      (fun total1 =>
         let total2 :=
           if Py.truthy inp then (total1 + dumps_len inp)%nat else total1 in
         if Py.truthy content_blocks then
           match content_blocks with
           | JArr cbs => count_blocks cbs total2
           | _ => (total2, false)
           end
         else (total2, false))
  else (total, false).

Fixpoint count_items (items : list json) (total : nat) : counted :=
  match items with
  | [] => (total, false)
  | item :: rest => and_then (count_item item total) (count_items rest)
  end.

(** Lines 147-173: the body of the loop over lines, with its
    [except: continue]. *)
Definition count_line (line : option json) (total : nat) : nat :=
  match line with
  | None => total
  | Some msg =>
      match Py.get msg "type" with
      | Raised => total
      | Ok ty =>
          if negb (Py.eq_str ty "user" || Py.eq_str ty "assistant")
          then total
          else
            match (let* m := Py.get_or msg "message" (JObj []) in
                   Py.get_or m "content" (JStr "")) with
            | Raised => total
            | Ok (JStr s) => (total + String.length s)%nat
            | Ok (JArr items) => fst (count_items items total)
            | Ok _ => total
            end
      end
  end.

Definition total_content_chars (lines : list (option json)) : nat :=
  fold_left (fun total line => count_line line total) lines 0%nat.

(** Lines 140-190, once [current_session] is selected: [size] is the
    outcome of [stat().st_size], [file] what reading delivers. *)
Definition context_of (size : result Z) (file : file_read)
    : option ContextData :=
  match size with
  | Raised => None
  | Ok file_size =>
      if read_failed file then None
      else
        let file_based_tokens := (file_size / 6)%Z in
        let content_based_tokens :=
          (Z.of_nat (total_content_chars (lines_read file)) / 4)%Z in
        let estimated_tokens :=
          Z.max file_based_tokens content_based_tokens in
        let percentage :=
          (inject_Z estimated_tokens / inject_Z CONTEXT_LIMIT * 100)%Q in
        Some {| estimated_tokens := estimated_tokens;
                context_limit := CONTEXT_LIMIT;
                percentage := py_round 1 percentage;
                warning_threshold := WARNING_THRESHOLD |}
  end.

(** *** The file system as the estimator sees it *)

(** An entry of [iterdir()]: its path and its last component. *)
Record dir_entry : Type := {
  entry_path : string;
  entry_name : string
}.

Variable path_exists : string -> result bool.
Variable iterdir : string -> result (list dir_entry).
Variable path_is_dir : string -> result bool.
Variable glob_jsonl : string -> result (list string).
Variable st_mtime : string -> result Q.
Variable st_size : string -> result Z.
Variable read_file : string -> file_read.

(** The reading of [time.time()] taken while a directory is examined. *)
Variable time_at : string -> Q.

(** [max(l, key=...)] on a non-empty list: the first maximal element;
    the key is evaluated on every element and may raise. *)
Fixpoint max_from {A : Type} (key : A -> result Q) (best : A) (kbest : Q)
    (l : list A) : result A :=
  match l with
  | [] => Ok best
  | x :: rest =>
      let* kx := key x in
      if Qltb kbest kx then max_from key x kx rest
      else max_from key best kbest rest
  end.

Definition max_by {A : Type} (key : A -> result Q) (l : list A)
    : result (option A) :=
  match l with
  | [] => Ok None
  | x :: rest =>
      let* kx := key x in
      let* m := max_from key x kx rest in
      Ok (Some m)
  end.

(** Lines 113-121. *)
Fixpoint recent_dirs (entries : list dir_entry)
    : result (list (string * Q)) :=
  match entries with
  | [] => Ok []
  | pdir :: rest =>
      let* d := path_is_dir (entry_path pdir) in
      let* here :=
        (if d && negb (String.prefix "." (entry_name pdir)) then
           let* jsonl_files := glob_jsonl (entry_path pdir) in
           let* most_recent := max_by st_mtime jsonl_files in
           match most_recent with
           | None => Ok []
           | Some f =>
               let* mtime := st_mtime f in
               if Qltb (time_at (entry_path pdir) - mtime)%Q 300
               then Ok [(entry_path pdir, mtime)]
               else Ok []
           end
         else Ok []) in
      let* more := recent_dirs rest in
      Ok (here ++ more)%list
  end.

(** Lines 106-128: the directory the estimator settles on, if any. *)
Definition resolve_project_dir (claude_projects project_path : string)
    : result (option string) :=
  let encoded_path := Py.replace_char "/" "-" project_path in
  let project_dir := claude_projects ++ "/" ++ encoded_path in
  let* e := path_exists project_dir in
  let* root := (if e then Ok false else path_exists claude_projects) in
  let* project_dir :=
    (if root then
       let* entries := iterdir claude_projects in
       let* recent := recent_dirs entries in
       let* best := max_by (fun x => Ok (snd x)) recent in
       Ok (match best with
           | Some x => fst x
           | None => project_dir
           end)
     else Ok project_dir) in
  let* e' := path_exists project_dir in
  Ok (if e' then Some project_dir else None).

(** Lines 131-135: the current transcript of a resolved directory. *)
Definition current_session (project_dir : string) : result (option string) :=
  let* jsonl_files := glob_jsonl project_dir in
  max_by st_mtime jsonl_files.

Definition estimate_context_usage (claude_projects project_path : string)
    : result (option ContextData) :=
  let* dir := resolve_project_dir claude_projects project_path in
  match dir with
  | None => Ok None
  | Some project_dir =>
      let* cur := current_session project_dir in
      match cur with
      | None => Ok None
      | Some f => Ok (context_of (st_size f) (read_file f))
      end
  end.

End ContextEstimator.

(** * The remaining functions *)

(** [_estimate_tokens]. *)
Definition _estimate_tokens (text : string) : Z :=
  if String.eqb text "" then 0%Z else (Z.of_nat (String.length text) / 4)%Z.

(** [save_usage_data]: the dictionary handed to [json.dump]; writing the
    file is outside the embedding. [py_round] is Python's [round]. *)
Definition save_usage_data (py_round : nat -> Q -> Q) (usage_data : UsageData)
    : json :=
  JObj
    [("current_5h_cycle",
      JObj [("start_time",
             JNum (inject_Z (py_int (current_5h_start usage_data * 1000)%Q)));
            ("total_prompts", JNum (Qnat (current_5h_prompts usage_data)));
            ("total_hours",
             JNum (py_round 2%nat
                     (Qnat (current_5h_prompts usage_data) / 10)%Q))]);
     ("current_week",
      JObj [("start_time",
             JNum (inject_Z (py_int (weekly_start usage_data * 1000)%Q)));
            ("sonnet4_hours", JNum (weekly_sonnet_hours usage_data));
            ("opus4_hours", JNum (weekly_opus_hours usage_data));
            ("total_sessions",
             JNum (Qnat (List.length (sessions usage_data))))]);
     ("last_updated",
      JNum (inject_Z (py_int (last_updated usage_data * 1000)%Q)))].

(** ** [status_line.py] *)

(** [get_context_color]: an RGB triple. *)
Definition get_context_color (percentage : Q) : Z * Z * Z :=
  if Qltb percentage 40 then (0, 255, 0)%Z
  else if Qltb percentage 65 then (255, 255, 0)%Z
  else if Qltb percentage 80 then (255, 165, 0)%Z
  else (255, 100, 100)%Z.

(** Line 117 of [generate_status_line]: whether the context part carries
    the warning sign. *)
Definition shows_warning (ctx_used_pct : Q) : bool :=
  Qle_bool 65 ctx_used_pct.

(** Lines 74-87 of [generate_status_line]: the model label, from the
    parsed standard input and the value of the environment variable
    [CLAUDE_MODEL] (empty when unset). Nothing catches an exception
    here. *)
Definition current_model (stdin_data : json) (claude_model_env : string)
    : result string :=
  let* model := Py.get_or stdin_data "model" (JObj []) in
  let* display_name := Py.get model "display_name" in
  if Py.truthy display_name then
    let model_name := display_name in
    let* model_id := Py.get_or model "id" (JStr "") in
    let* is_opus := Py.str_in "Opus" model_name in
    if is_opus then
      let* a := Py.str_in "4.5" model_name in
      if a then Ok "Opus 4.5"
      else
        let* b := Py.str_in "4-5" model_id in
        Ok (if b then "Opus 4.5" else "Opus 4")
    else
      let* is_sonnet := Py.str_in "Sonnet" model_name in
      Ok "Sonnet 4"
  else
    let claude_model := Py.lower claude_model_env in
    Ok (if Py.contains "opus" claude_model then "Opus 4" else "Sonnet 4").

(** * Specification vocabulary and sample data *)

(** [needle] occurs in [hay]. *)
Definition occurs_in (needle hay : string) : Prop :=
  exists pre post, hay = pre ++ needle ++ post.

Definition has_marker (s : string) : Prop :=
  occurs_in CMD_NAME s \/ occurs_in CMD_STDOUT s.

(** A text-type block whose text contains a marker. *)
Definition marked_text_block (item : json) : Prop :=
  exists fields s,
    item = JObj fields /\
    Py.lookup "type" fields = Some (JStr "text") /\
    Py.lookup "text" fields = Some (JStr s) /\
    has_marker s.

(** The specification's command message: a string, or a text-type block
    in a list, containing one of the two markers. *)
Definition command_message (content : json) : Prop :=
  match content with
  | JStr s => has_marker s
  | JArr items => Exists marked_text_block items
  | _ => False
  end.

Definition non_empty (content : json) : Prop :=
  match content with
  | JNull => False
  | JBool b => b = true
  | JNum q => ~ (q == 0)%Q
  | JStr s => s <> ""
  | JArr items => items <> []
  | JObj fields => fields <> []
  end.

Definition content_field (mfields : list (string * json)) : json :=
  default (JStr "") (Py.lookup "content" mfields).

(** The specification's qualifying user prompt. *)
Definition qualifying (msg : json) : Prop :=
  exists fields mfields,
    msg = JObj fields /\
    Py.lookup "type" fields = Some (JStr "user") /\
    Py.lookup "message" fields = Some (JObj mfields) /\
    Py.lookup "role" mfields = Some (JStr "user") /\
    Py.truthy (default (JBool false) (Py.lookup "isMeta" fields)) = false /\
    Py.lookup "userType" fields = Some (JStr "external") /\
    non_empty (content_field mfields) /\
    ~ command_message (content_field mfields).

(** A text-type block carries a string as its text, or none. *)
Definition text_block_ok (item : json) : bool :=
  match item with
  | JObj fields =>
      if Py.eq_str (default JNull (Py.lookup "type" fields)) "text" then
        match Py.lookup "text" fields with
        | None | Some (JStr _) => true
        | Some _ => false
        end
      else true
  | _ => true
  end.

Definition texts_are_strings (msg : json) : bool :=
  match field (field msg "message" (JObj [])) "content" (JStr "") with
  | JArr items => forallb text_block_ok items
  | _ => true
  end.

(** The record of the specification's command-filter example. *)
Definition command_record : json :=
  JObj [("type", JStr "user");
        ("message", JObj [("role", JStr "user");
                          ("content", JStr "<command-name>foo</command-name>")]);
        ("userType", JStr "external");
        ("isMeta", JBool false)].

(** A record that meets every stated condition, with a text block whose
    text is [null]. *)
Definition null_text_record : json :=
  JObj [("type", JStr "user");
        ("message", JObj [("role", JStr "user");
                          ("content", JArr [JObj [("type", JStr "text");
                                                  ("text", JNull)]])]);
        ("userType", JStr "external")].

(** The marker test on one block, as a boolean. *)
Definition marked_b (item : json) : bool :=
  match item with
  | JObj fields =>
      Py.eq_str (default JNull (Py.lookup "type" fields)) "text" &&
      match Py.lookup "text" fields with
      | Some (JStr s) => Py.contains CMD_NAME s || Py.contains CMD_STDOUT s
      | _ => false
      end
  | _ => false
  end.

(** An ordinary prompt. *)
Definition hello_record : json :=
  JObj [("type", JStr "user");
        ("message", JObj [("role", JStr "user"); ("content", JStr "hello")]);
        ("userType", JStr "external")].

(** An assistant record whose model identifier names both families. *)
Definition both_families_record : json :=
  JObj [("type", JStr "assistant");
        ("message", JObj [("model", JStr "Claude-Sonnet-via-OPUS")])].

(** The sessions the aggregator keeps of those the analyzer returned. *)
Definition real_sessions (analysed : list SessionData) : list SessionData :=
  List.filter (fun s => Qltb 0 (duration_hours s)) analysed.

(** The loops of [get_all_sessions] without the test on the duration:
    every session the analyzer returned, in order. *)
Definition visit_file_all (off : Z) (st : list SessionData * UsageTracker)
    (v : visit) : list SessionData * UsageTracker :=
  let '(session, self') :=
    _analyze_jsonl_file off (v_now_check v) (v_now_store v)
      (v_file v) (v_path v) (snd st) in
  ((fst st ++ [session])%list, self').

Definition visit_project_all (off : Z) (st : list SessionData * UsageTracker)
    (p : project_entry) : list SessionData * UsageTracker :=
  if is_dir p then fold_left (visit_file_all off) (jsonl_files p) st else st.

Definition analysed_sessions (off : Z) (projects : option (list project_entry))
    (self : UsageTracker) : list SessionData :=
  match projects with
  | None => []
  | Some ps => fst (fold_left (visit_project_all off) ps ([], self))
  end.

(** The two traversals agree up to the filter. *)
Definition agree (st st_all : list SessionData * UsageTracker) : Prop :=
  fst st = real_sessions (fst st_all) /\ snd st = snd st_all.

(** The analysis is computed, not served from the cache, when the path
    has no entry or the time-to-live has run out. *)
Definition computed (self : UsageTracker) (now_check : Q) (p : Path) : Prop :=
  _cache self !! path_str p = None \/
  (cache_duration self <= now_check - _cache_time self)%Q.

(** A transcript with one prompt and no timestamp. *)
Definition undated_file : file_read :=
  {| lines_read := [Some hello_record]; read_failed := false |}.

Definition undated_path : Path :=
  {| path_str := "/home/u/.claude/projects/-home-u-app/s1.jsonl";
     stem := "s1"; parent_name := "-home-u-app" |}.

Definition tracker0 : UsageTracker :=
  init 0 {| day_number := 0; seconds_of_day := 0 |} 0.

(** Every timestamp of the lines that parses at all parses to zero. *)
Definition only_epoch_timestamps (off : Z) (lines : list (option json)) : bool :=
  forallb
    (fun line =>
       match line with
       | Some msg =>
           match Py.get msg "timestamp" with
           | Ok ts =>
               match _parse_timestamp off ts with
               | Some epoch => Qeq_bool epoch 0
               | None => true
               end
           | Raised => true
           end
       | None => true
       end) lines.

(** A transcript whose only timestamp is the epoch instant. *)
Definition epoch_record : json :=
  JObj [("type", JStr "user");
        ("timestamp", JStr "1970-01-01T00:00:00Z");
        ("message", JObj [("role", JStr "user"); ("content", JStr "hello")]);
        ("userType", JStr "external")].

Definition epoch_file : file_read :=
  {| lines_read := [Some epoch_record; Some epoch_record];
     read_failed := false |}.

(** The duration of the sessions of a list that have an attributed
    response. *)
Definition attributed_hours (l : list SessionData) : Q :=
  fold_left
    (fun h s =>
       if (0 <? sonnet_responses s + opus_responses s)%nat
       then (h + duration_hours s)%Q else h) l 0%Q.

(** A session of two hours with three sonnet and one opus response. *)
Definition mixed_session : SessionData :=
  {| session_id := "s1"; start_time := 3600; end_time := 10800;
     duration_hours := 2; prompt_count := 4;
     sonnet_responses := 3; opus_responses := 1; project := "p" |}.

(** Wednesday 2024-01-03, 01:01:01.5 local time. *)
Definition sample_local_now : local_datetime :=
  {| day_number := 19725; seconds_of_day := 7323 # 2 |}.



(** A store whose project directory exists and holds one transcript that
    cannot be read. *)
Definition unreadable_size (f : string) : result Z := Raised.
Definition one_transcript (dir : string) : result (list string) :=
  Ok ["/home/u/.claude/projects/-home-u-app/s1.jsonl"].
Definition everything_exists (p : string) : result bool := Ok true.
Definition no_entries (p : string) : result (list dir_entry) := Ok [].
Definition mtime_one (f : string) : result Q := Ok 1%Q.
Definition reads_nothing (f : string) : file_read :=
  {| lines_read := []; read_failed := true |}.

(** The same store with the transcript a dangling link: it is listed,
    and [stat] on it raises. *)
Definition mtime_unavailable (f : string) : result Q := Raised.
Definition size_600 (f : string) : result Z := Ok 600%Z.
Definition reads_hello (f : string) : file_read :=
  {| lines_read := [Some hello_record]; read_failed := false |}.

Definition dated_record (ts : string) : json :=
  JObj [("type", JStr "user"); ("timestamp", JStr ts);
        ("message", JObj [("role", JStr "user"); ("content", JStr "hello")]);
        ("userType", JStr "external")].

Definition path_a : Path :=
  {| path_str := "/home/u/.claude/projects/-home-u-app/a.jsonl";
     stem := "a"; parent_name := "-home-u-app" |}.

Definition path_b : Path :=
  {| path_str := "/home/u/.claude/projects/-home-u-app/b.jsonl";
     stem := "b"; parent_name := "-home-u-app" |}.

(** Transcript [a] when first analysed: one hour of activity. *)
Definition file_a1 : file_read :=
  {| lines_read := [Some (dated_record "2024-01-01T10:00:00Z");
                    Some (dated_record "2024-01-01T11:00:00Z")];
     read_failed := false |}.

(** Transcript [a] six seconds later: a record was appended. *)
Definition file_a2 : file_read :=
  {| lines_read := [Some (dated_record "2024-01-01T10:00:00Z");
                    Some (dated_record "2024-01-01T11:00:00Z");
                    Some (dated_record "2024-01-01T13:00:00Z")];
     read_failed := false |}.

Definition file_b1 : file_read :=
  {| lines_read := [Some (dated_record "2024-01-01T09:00:00Z");
                    Some (dated_record "2024-01-01T09:30:00Z")];
     read_failed := false |}.

(** [a] analysed at time 100, [b] at 104, [a] again at 106. *)
Definition run_a1 := _analyze_jsonl_file 0 100 100 file_a1 path_a tracker0.
Definition run_b := _analyze_jsonl_file 0 104 104 file_b1 path_b (snd run_a1).
Definition run_a2 := _analyze_jsonl_file 0 106 106 file_a2 path_a (snd run_b).

Definition is_digit (c : ascii) : bool :=
  match Datetime.digit c with Some _ => true | None => false end.

Fixpoint drop_digits (s : string) : string :=
  match s with
  | EmptyString => EmptyString
  | String c s' => if is_digit c then drop_digits s' else s
  end.

(** The timestamp with its fractional seconds cut off: the dot and the
    digits after it go, what follows them stays. *)
Fixpoint truncate_fraction (s : string) : string :=
  match s with
  | EmptyString => EmptyString
  | String c s' =>
      if Ascii.eqb c "." then drop_digits s'
      else String c (truncate_fraction s')
  end.

(** The reference of the specification: an ISO-8601 parser that reads
    "Z" as UTC, applied to the timestamp with its fraction truncated. *)
Definition reference_epoch (off : Z) (ts : string) : option Q :=
  dt ← Datetime.fromisoformat
         (Py.replace_char "Z" "+00:00" (truncate_fraction ts));
  Some (inject_Z (Datetime.timestamp off dt)).

Fixpoint all_digits (s : string) : bool :=
  match s with
  | EmptyString => true
  | String c s' => is_digit c && all_digits s'
  end.

(** ** Vocabulary for the further properties *)

(** Two scans one after the other. *)
Definition scan_add (a b : scan) : scan :=
  {| timestamps := (timestamps a ++ timestamps b)%list;
     prompts := (prompts a + prompts b)%nat;
     sonnet := (sonnet a + sonnet b)%nat;
     opus := (opus a + opus b)%nat |}.

(** A line that parsed to a JSON object; any other line is skipped. *)
Definition is_object_line (line : option json) : bool :=
  match line with
  | Some (JObj _) => true
  | _ => false
  end.

(** The same counters and the same timestamps up to their order. *)
Definition scan_equiv (a b : scan) : Prop :=
  Permutation (timestamps a) (timestamps b) /\
  prompts a = prompts b /\ sonnet a = sonnet b /\ opus a = opus b.

(** A transcript of two dated records, and the same lines swapped. *)
Definition two_lines : list (option json) :=
  [Some (dated_record "2024-01-01T10:00:00Z");
   Some (dated_record "2024-01-01T11:00:00Z")].

Definition two_lines_swapped : list (option json) :=
  [Some (dated_record "2024-01-01T11:00:00Z");
   Some (dated_record "2024-01-01T10:00:00Z")].

(** An assistant record and a record whose message is not an object, with
    one and the same timestamp. *)
Definition dated_assistant : list (string * json) :=
  [("type", JStr "assistant"); ("timestamp", JStr "2024-01-01T10:00:00Z");
   ("message", JObj [("model", JStr "claude-opus-4")])].

Definition dated_broken : list (string * json) :=
  [("timestamp", JStr "2024-01-01T10:00:00Z"); ("type", JStr "user");
   ("message", JStr "not an object")].

(** A session whose fields are consistent: it does not end before it
    starts and its duration is the difference in hours. *)
Definition consistent (s : SessionData) : Prop :=
  (start_time s <= end_time s)%Q /\
  (duration_hours s * 3600 == end_time s - start_time s)%Q.

(** Every cached session is consistent. *)
Definition cache_consistent (self : UsageTracker) : Prop :=
  map_Forall (fun _ s => consistent s) (_cache self).

(** The number of transcripts in the directories of a listing. *)
Definition count_files (ps : list project_entry) : nat :=
  fold_left
    (fun n p => if is_dir p then (n + List.length (jsonl_files p))%nat else n)
    ps 0%nat.

(** The total duration of a list of sessions. *)
Definition total_hours (l : list SessionData) : Q :=
  fold_left (fun h s => (h + duration_hours s)%Q) l 0%Q.

(** A week that began at time 0 with the current cycle beginning at
    18000. *)
Definition tracker_mid_week : UsageTracker :=
  {| week_start := 0; cycle_5h_start := 18000; _cache := ∅;
     _cache_time := 0; cache_duration := 5 |}.

(** What the loops of [get_all_sessions] keep true. *)
Definition sessions_ok (st : list SessionData * UsageTracker) : Prop :=
  List.Forall (fun s => consistent s /\ (0 < duration_hours s)%Q) (fst st) /\
  cache_consistent (snd st).

(** A line that parsed to an object of type "user" or "assistant". *)
Definition is_message_line (line : option json) : bool :=
  match line with
  | Some (JObj fields) =>
      let ty := default JNull (Py.lookup "type" fields) in
      Py.eq_str ty "user" || Py.eq_str ty "assistant"
  | _ => false
  end.

(** A directory of the storage root that the fallback of the estimator
    accepts: a directory that is not hidden, whose newest transcript, of
    modification time [m], was modified less than 300 seconds before the
    clock reading taken for it. *)
Definition recent_candidate
    (path_is_dir : string -> result bool)
    (glob_jsonl : string -> result (list string))
    (st_mtime : string -> result Q) (time_at : string -> Q)
    (e : dir_entry) (m : Q) : Prop :=
  path_is_dir (entry_path e) = Ok true /\
  String.prefix "." (entry_name e) = false /\
  (time_at (entry_path e) - m < 300)%Q /\
  exists files f,
    glob_jsonl (entry_path e) = Ok files /\ In f files /\
    st_mtime f = Ok m /\
    forall g, In g files -> exists mg, st_mtime g = Ok mg /\ (mg <= m)%Q.

(** The directory the exact match looks for. *)
Definition exact_dir (claude_projects project_path : string) : string :=
  claude_projects ++ "/" ++ Py.replace_char "/" "-" project_path.

(** Standard input naming a model, as the host application sends it. *)
Definition stdin_with_model (model_name model_id : string) : json :=
  JObj [("model", JObj [("display_name", JStr model_name);
                        ("id", JStr model_id)])].

(** A list content whose first block is a command and whose second block
    would make the marker test raise. *)
Definition command_block : json :=
  JObj [("type", JStr "text"); ("text", JStr "<command-name>x</command-name>")].

Definition null_text_block : json :=
  JObj [("type", JStr "text"); ("text", JNull)].

(** [d[section][key]] of the saved dictionary. *)
Definition saved (data : json) (section key : string) : result json :=
  let* s := Py.get data section in Py.get s key.

(** ** The extraction and the rounding the estimate is compared with *)








(** The transcripts on which the code extracts what section 4.4 says. *)















(** * Properties *)

(** ** Qualifying user prompts *)

Lemma app_cons (c : ascii) (s t : string) :
  String c s ++ t = String c (s ++ t).
Proof. reflexivity. Qed.

Lemma app_nil (t : string) : "" ++ t = t.
Proof. reflexivity. Qed.

Lemma prefix_occurs (n h : string) :
  String.prefix n h = true <-> exists post, h = n ++ post.
Proof.
  revert h. induction n as [|c n IH]; intros h.
  - split; [intros _; exists h; reflexivity | destruct h; reflexivity].
  - destruct h as [|c' h]; simpl.
    + split; [discriminate | intros [post H]; rewrite app_cons in H; discriminate].
    + destruct (ascii_dec c c') as [->|Hne].
      * rewrite IH. split; intros [post H]; exists post;
          rewrite app_cons in *; congruence.
      * split; [discriminate | intros [post H]; rewrite app_cons in H; congruence].
Qed.

Lemma prefix_here (n h post : string) :
  h = n ++ post -> String.prefix n h = true.
Proof. intros H. apply prefix_occurs. exists post. exact H. Qed.

Lemma contains_eq (n h : string) :
  Py.contains n h =
  if String.prefix n h then true
  else match h with
       | EmptyString => false
       | String _ h' => Py.contains n h'
       end.
Proof. destruct h; reflexivity. Qed.

Lemma contains_occurs (n h : string) :
  Py.contains n h = true <-> occurs_in n h.
Proof.
  induction h as [|c h IH]; rewrite contains_eq.
  - destruct (String.prefix n "") eqn:E.
    + split; [intros _ | reflexivity].
      apply prefix_occurs in E as [post E]. exists "", post. exact E.
    + split; [discriminate|]. intros [pre [post H]].
      destruct pre; [rewrite app_nil in H | rewrite app_cons in H; discriminate].
      rewrite (prefix_here _ _ _ H) in E. discriminate.
  - destruct (String.prefix n (String c h)) eqn:E.
    + split; [intros _ | reflexivity].
      apply prefix_occurs in E as [post E]. exists "", post. exact E.
    + rewrite IH. split.
      * intros [pre [post H]]. exists (String c pre), post.
        rewrite app_cons. congruence.
      * intros [pre [post H]]. destruct pre as [|c' pre].
        -- rewrite app_nil in H. rewrite (prefix_here _ _ _ H) in E.
           discriminate.
        -- rewrite app_cons in H. exists pre, post. congruence.
Qed.

Lemma marker_test (s : string) :
  Py.contains CMD_NAME s || Py.contains CMD_STDOUT s = true <-> has_marker s.
Proof.
  unfold has_marker. rewrite orb_true_iff, !contains_occurs. reflexivity.
Qed.

Lemma eq_str_true (v : json) (s : string) :
  Py.eq_str v s = true <-> v = JStr s.
Proof.
  destruct v; simpl; try (split; [discriminate | intros H; discriminate]).
  rewrite String.eqb_eq. split; congruence.
Qed.

Lemma default_is_str (d : json) (o : option json) (s : string) :
  (forall s', d <> JStr s') ->
  default d o = JStr s <-> o = Some (JStr s).
Proof.
  intros Hd. destruct o as [v|]; simpl.
  - split; congruence.
  - split; [intros H; exfalso; exact (Hd _ H) | discriminate].
Qed.

Lemma truthy_non_empty (v : json) : Py.truthy v = true <-> non_empty v.
Proof.
  destruct v as [|b|q|s|items|fields]; simpl.
  - split; [discriminate | tauto].
  - reflexivity.
  - rewrite negb_true_iff. split.
    + intros H E. apply Qeq_bool_iff in E. congruence.
    + intros H. destruct (Qeq_bool q 0) eqn:E; [|reflexivity].
      exfalso. apply H. apply Qeq_bool_iff. exact E.
  - rewrite negb_true_iff. split.
    + intros H E. subst s. discriminate.
    + intros H. apply String.eqb_neq. exact H.
  - destruct items; split; congruence.
  - destruct fields; split; congruence.
Qed.

Lemma marked_b_spec (item : json) :
  marked_b item = true <-> marked_text_block item.
Proof.
  unfold marked_text_block, marked_b. destruct item as [| | | |items|fields];
    try (split; [discriminate | intros (f0 & s0 & H0 & _); discriminate]).
  rewrite andb_true_iff, eq_str_true, default_is_str by discriminate.
  split.
  - intros [Hty Htx].
    destruct (Py.lookup "text" fields) as [[| | |s| |]|] eqn:Etx;
      try discriminate.
    exists fields, s. rewrite marker_test in Htx. repeat split; auto.
  - intros (f & s & Hf & Hty & Htx & Hm). injection Hf as <-.
    rewrite Htx, marker_test. auto.
Qed.

Lemma command_items_typed (items : list json) :
  forallb text_block_ok items = true ->
  _is_command_items items = Ok (existsb marked_b items).
Proof.
  induction items as [|item rest IH]; intros Hok; [reflexivity|].
  simpl in Hok. apply andb_true_iff in Hok as [Hitem Hrest].
  specialize (IH Hrest).
  destruct item as [| | | |its|fields]; simpl; try exact IH.
  simpl in Hitem.
  destruct (Py.eq_str (default JNull (Py.lookup "type" fields)) "text");
    simpl; [|exact IH].
  destruct (Py.lookup "text" fields) as [[| | |s| |]|];
    try discriminate; simpl.
  - destruct (Py.contains CMD_NAME s); simpl; [reflexivity|].
    destruct (Py.contains CMD_STDOUT s); simpl; [reflexivity | exact IH].
  - exact IH.
Qed.

Lemma command_message_typed (content : json) :
  match content with
  | JArr items => forallb text_block_ok items = true
  | _ => True
  end ->
  exists b, _is_command_message content = Ok b /\
            (b = true <-> command_message content).
Proof.
  destruct content as [| | |s|items|fields]; simpl; intros Hok;
    try (exists false; split; [reflexivity | split; [discriminate | tauto]]).
  - eexists. split; [reflexivity|]. apply marker_test.
  - rewrite (command_items_typed _ Hok). eexists. split; [reflexivity|].
    rewrite List.existsb_exists, List.Exists_exists.
    split; intros (x & Hin & Hx); exists x; (split; [exact Hin|]);
      apply marked_b_spec; exact Hx.
Qed.

Lemma prompt_guard_true (msg : json) :
  prompt_guard msg = Ok true <->
  exists fields mfields,
    msg = JObj fields /\
    Py.lookup "type" fields = Some (JStr "user") /\
    Py.lookup "message" fields = Some (JObj mfields) /\
    Py.lookup "role" mfields = Some (JStr "user") /\
    Py.truthy (default (JBool false) (Py.lookup "isMeta" fields)) = false /\
    Py.lookup "userType" fields = Some (JStr "external").
Proof.
  destruct msg as [| | | | |fields];
    try (split; [discriminate | intros (f0 & m0 & H0 & _); discriminate]).
  unfold prompt_guard, Py.get, Py.get_or, bind.
  destruct (Py.eq_str (default JNull (Py.lookup "type" fields)) "user")
    eqn:Ety; simpl.
  2:{ split; [discriminate|]. intros (f0 & m0 & H0 & Hty & _).
      injection H0 as <-. rewrite Hty in Ety. discriminate. }
  apply eq_str_true, default_is_str in Ety; [|discriminate].
  destruct (Py.lookup "message" fields) as [m|] eqn:Em; simpl.
  2:{ split; [discriminate|]. intros (f0 & m0 & H0 & _ & Hm & _).
      injection H0 as <-. congruence. }
  destruct m as [| | | | |mfields];
    try (split; [discriminate|]; intros (f0 & m0 & H0 & _ & Hm & _);
         injection H0 as <-; congruence).
  destruct (Py.eq_str (default JNull (Py.lookup "role" mfields)) "user")
    eqn:Erole; simpl.
  2:{ split; [discriminate|]. intros (f0 & m0 & H0 & _ & Hm & Hr & _).
      injection H0 as <-. rewrite Em in Hm. injection Hm as <-.
      rewrite Hr in Erole. discriminate. }
  apply eq_str_true, default_is_str in Erole; [|discriminate].
  destruct (Py.truthy (default (JBool false) (Py.lookup "isMeta" fields)))
    eqn:Emeta.
  { split; [discriminate|]. intros (f0 & m0 & H0 & _ & _ & _ & Hmeta & _).
    injection H0 as <-. congruence. }
  destruct (Py.eq_str (default JNull (Py.lookup "userType" fields)) "external")
    eqn:Eut; simpl.
  2:{ split; [discriminate|]. intros (f0 & m0 & H0 & _ & _ & _ & _ & Hut).
      injection H0 as <-. rewrite Hut in Eut. discriminate. }
  apply eq_str_true, default_is_str in Eut; [|discriminate].
  split; [intros _ | reflexivity].
  exists fields, mfields. repeat split; assumption.
Qed.

Lemma collect_timestamp_counters (off : Z) (ts : json) (a : scan) :
  prompts (collect_timestamp off ts a) = prompts a /\
  sonnet (collect_timestamp off ts a) = sonnet a /\
  opus (collect_timestamp off ts a) = opus a.
Proof.
  unfold collect_timestamp.
  destruct (Py.truthy ts); [|auto].
  destruct (_parse_timestamp off ts) as [epoch|]; [|auto].
  destruct (Qeq_bool epoch 0); auto.
Qed.

(** The analyzer counts a record exactly when [counts_as_prompt] says so. *)
Lemma analyze_line_prompts (off : Z) (msg : json) (a : scan) :
  prompts (analyze_line off (Some msg) a) = S (prompts a) <->
  counts_as_prompt msg = Ok true.
Proof.
  unfold analyze_line, counts_as_prompt, classify.
  destruct (Py.get msg "timestamp") as [ts|] eqn:Ets.
  2:{ destruct msg; try discriminate;
        (split; [intros H; exfalso; lia | discriminate]). }
  destruct (collect_timestamp_counters off ts a) as (Hp & _ & _).
  destruct (prompt_guard msg) as [[|]|]; simpl.
  - destruct (prompt_body msg) as [[|]|]; simpl; rewrite ?Hp;
      (split; [intros H; try reflexivity; exfalso; lia
              | intros H; try reflexivity; discriminate]).
  - split; [|discriminate]. intros H. exfalso. revert H.
    destruct (Py.get msg "type") as [ty|]; simpl; [|lia].
    destruct (Py.eq_str ty "assistant"); simpl; [|lia].
    destruct (Py.get_or msg "message" (JObj [])) as [m|]; simpl; [|lia].
    destruct (Py.get_or m "model" (JStr "")) as [mdl|]; simpl; [|lia].
    destruct (model_lower mdl) as [model|]; simpl; [|lia].
    destruct (Py.contains "opus" model); simpl; [lia|].
    destruct (Py.contains "sonnet" model); simpl; lia.
  - split; [intros H; exfalso; lia | discriminate].
Qed.

Lemma counts_as_prompt_typed (msg : json) :
  texts_are_strings msg = true ->
  counts_as_prompt msg = Ok true <-> qualifying msg.
Proof.
  intros Hty. unfold counts_as_prompt, qualifying.
  destruct (prompt_guard msg) as [[|]|] eqn:Eg; simpl.
  - apply prompt_guard_true in Eg
      as (fields & mfields & -> & Ht & Hm & Hr & Hmeta & Hut).
    unfold prompt_body, Py.get_or, bind. rewrite Hm. simpl.
    fold (content_field mfields).
    unfold texts_are_strings, field in Hty. rewrite Hm in Hty. simpl in Hty.
    fold (content_field mfields) in Hty.
    destruct (command_message_typed (content_field mfields)) as (b & Eb & Hb).
    { destruct (content_field mfields); auto. }
    destruct (Py.truthy (content_field mfields)) eqn:Etr.
    + rewrite Eb. split.
      * intros H. exists fields, mfields.
        repeat split; try assumption.
        -- apply truthy_non_empty. exact Etr.
        -- intros Hc. apply Hb in Hc. subst b. discriminate.
      * intros (f0 & m0 & H0 & _ & Hm0 & _ & _ & _ & _ & Hnc).
        injection H0 as <-. rewrite Hm in Hm0. injection Hm0 as <-.
        destruct b; [exfalso; apply Hnc, Hb; reflexivity | reflexivity].
    + split; [discriminate|].
      intros (f0 & m0 & H0 & _ & Hm0 & _ & _ & _ & Hne & _).
      injection H0 as <-. rewrite Hm in Hm0. injection Hm0 as <-.
      apply truthy_non_empty in Hne. congruence.
  - split; [discriminate|].
    intros (f0 & m0 & H0 & Ht & Hm & Hr & Hmeta & Hut & _).
    assert (prompt_guard msg = Ok true) as E
      by (apply prompt_guard_true; exists f0, m0; auto 10).
    congruence.
  - split; [discriminate|].
    intros (f0 & m0 & H0 & Ht & Hm & Hr & Hmeta & Hut & _).
    assert (prompt_guard msg = Ok true) as E
      by (apply prompt_guard_true; exists f0, m0; auto 10).
    congruence.
Qed.

(** C1 (as amended). For every record in which each text-type block of a
    list content carries a string as its text (or none), the Session
    Analyzer counts the record as a user prompt if and only if it is a
    qualifying prompt: type "user", message role "user", not flagged
    isMeta, userType "external", non-empty content, and content that is
    not a command message. The record of the command-filter example,
    whose content is "<command-name>foo</command-name>", is not counted. *)
Theorem C1_prompt_counted_iff_qualifying
    (off : Z) (a : scan) (msg : json)
    (Htyped : texts_are_strings msg = true) :
  (prompts (analyze_line off (Some msg) a) = S (prompts a) <-> qualifying msg)
  /\ prompts (analyze_line off (Some command_record) a) = prompts a.
Proof.
  split.
  - rewrite analyze_line_prompts. apply counts_as_prompt_typed. exact Htyped.
  - reflexivity.
Qed.

Lemma C1_prompt_counted_witness :
  texts_are_strings hello_record = true /\
  ((prompts (analyze_line 0 (Some hello_record) scan0) = S (prompts scan0)
    <-> qualifying hello_record)
   /\ prompts (analyze_line 0 (Some command_record) scan0) = prompts scan0).
Proof.
  split; [reflexivity|].
  apply (C1_prompt_counted_iff_qualifying 0 scan0 hello_record).
  reflexivity.
Defined.

(** C1 as stated fails on a record whose text block holds [null]: it
    meets every condition of a qualifying prompt, the marker test raises
    on it, and the line is skipped without being counted. *)
Lemma C1_null_text_not_counted :
  qualifying null_text_record /\
  counts_as_prompt null_text_record = Raised /\
  prompts (analyze_line 0 (Some null_text_record) scan0) = prompts scan0.
Proof.
  split; [|split; reflexivity].
  eexists _, _. repeat split; try reflexivity.
  - simpl. discriminate.
  - simpl. intros H. apply List.Exists_exists in H as (x & Hin & Hx).
    destruct Hin as [<-|[]].
    destruct Hx as (f & s & Hf & _ & Htx & _).
    injection Hf as <-. discriminate.
Qed.

(** ** Model-family attribution *)

Lemma classify_assistant (fields mfields : list (string * json)) (mdl : string) :
  Py.lookup "type" fields = Some (JStr "assistant") ->
  Py.lookup "message" fields = Some (JObj mfields) ->
  Py.lookup "model" mfields = Some (JStr mdl) ->
  classify (JObj fields) =
  Ok (if Py.contains "opus" (Py.lower mdl) then BumpOpus
      else if Py.contains "sonnet" (Py.lower mdl) then BumpSonnet
      else BumpNone).
Proof.
  intros Hty Hm Hmdl.
  unfold classify, prompt_guard, Py.get, Py.get_or, bind.
  rewrite Hty. simpl. rewrite Hm. simpl. rewrite Hmdl. simpl.
  destruct (Py.contains "opus" (Py.lower mdl)); [reflexivity|].
  destruct (Py.contains "sonnet" (Py.lower mdl)); reflexivity.
Qed.

(** C10. A record increments at most one of the two model-family
    counters, and an assistant record whose model identifier contains
    both "opus" and "sonnet", letter case ignored, is attributed to the
    opus family only. *)
Theorem C10_at_most_one_family (off : Z) (a : scan) (msg : json) :
  let a' := analyze_line off (Some msg) a in
  ((sonnet a' = sonnet a /\ opus a' = opus a) \/
   (sonnet a' = S (sonnet a) /\ opus a' = opus a) \/
   (sonnet a' = sonnet a /\ opus a' = S (opus a))) /\
  (forall fields mfields mdl,
      msg = JObj fields ->
      Py.lookup "type" fields = Some (JStr "assistant") ->
      Py.lookup "message" fields = Some (JObj mfields) ->
      Py.lookup "model" mfields = Some (JStr mdl) ->
      occurs_in "opus" (Py.lower mdl) ->
      occurs_in "sonnet" (Py.lower mdl) ->
      opus a' = S (opus a) /\ sonnet a' = sonnet a).
Proof.
  cbv zeta. split.
  - unfold analyze_line.
    destruct (Py.get msg "timestamp") as [ts|]; [|tauto].
    destruct (collect_timestamp_counters off ts a) as (_ & Hs & Ho).
    destruct (classify msg) as [[| | |]|]; simpl; rewrite Hs, Ho; tauto.
  - intros fields mfields mdl -> Hty Hm Hmdl Hopus _.
    unfold analyze_line. simpl Py.get.
    destruct (collect_timestamp_counters off
                (default JNull (Py.lookup "timestamp" fields)) a)
      as (_ & Hs & Ho).
    rewrite (classify_assistant fields mfields mdl Hty Hm Hmdl).
    apply contains_occurs in Hopus. rewrite Hopus. simpl.
    rewrite Hs, Ho. auto.
Qed.

Lemma C10_at_most_one_family_witness :
  let a' := analyze_line 0 (Some both_families_record) scan0 in
  opus a' = 1%nat /\ sonnet a' = 0%nat.
Proof.
  cbv zeta.
  refine (proj2 (C10_at_most_one_family 0 scan0 both_families_record)
            _ [("model", JStr "Claude-Sonnet-via-OPUS")]
            "Claude-Sonnet-via-OPUS" eq_refl eq_refl eq_refl eq_refl _ _);
    apply contains_occurs; reflexivity.
Defined.

(** ** Sessions without duration *)

Section Analysed.

Variable local_utc_offset : Z.

Lemma real_sessions_app (l1 l2 : list SessionData) :
  real_sessions (l1 ++ l2) = (real_sessions l1 ++ real_sessions l2)%list.
Proof.
  unfold real_sessions. induction l1 as [|x l1 IH]; simpl; [reflexivity|].
  rewrite IH. destruct (Qltb 0 (duration_hours x)); reflexivity.
Qed.

Lemma visit_file_agree st st_all v :
  agree st st_all ->
  agree (visit_file local_utc_offset st v) (visit_file_all local_utc_offset st_all v).
Proof.
  intros [Hl Hs]. unfold visit_file, visit_file_all. rewrite Hs.
  destruct (_analyze_jsonl_file local_utc_offset (v_now_check v)
              (v_now_store v) (v_file v) (v_path v) (snd st_all))
    as [session self'].
  unfold agree. simpl. rewrite real_sessions_app. simpl.
  destruct (Qltb 0 (duration_hours session)); simpl; rewrite Hl.
  - auto.
  - rewrite app_nil_r. auto.
Qed.

Lemma visit_files_agree vs : forall st st_all,
  agree st st_all ->
  agree (fold_left (visit_file local_utc_offset) vs st)
        (fold_left (visit_file_all local_utc_offset) vs st_all).
Proof.
  induction vs as [|v vs IH]; intros st st_all H; simpl; [exact H|].
  apply IH, visit_file_agree, H.
Qed.

Lemma visit_projects_agree ps : forall st st_all,
  agree st st_all ->
  agree (fold_left (visit_project local_utc_offset) ps st)
        (fold_left (visit_project_all local_utc_offset) ps st_all).
Proof.
  induction ps as [|p ps IH]; intros st st_all H; simpl; [exact H|].
  apply IH. unfold visit_project, visit_project_all.
  destruct (is_dir p); [apply visit_files_agree|]; exact H.
Qed.

Lemma get_all_sessions_real projects self :
  fst (get_all_sessions local_utc_offset projects self) =
  real_sessions (analysed_sessions local_utc_offset projects self).
Proof.
  destruct projects as [ps|]; simpl; [|reflexivity].
  apply (visit_projects_agree ps ([], self) ([], self)).
  split; reflexivity.
Qed.

End Analysed.

Lemma Qltb_lt (a b : Q) : Qltb a b = true <-> (a < b)%Q.
Proof.
  unfold Qltb. rewrite negb_true_iff. split.
  - intros H. apply Qnot_le_lt. intros Hle.
    apply Qle_bool_iff in Hle. congruence.
  - intros H. destruct (Qle_bool b a) eqn:E; [|reflexivity].
    apply Qle_bool_iff in E. exfalso. exact (Qlt_not_le _ _ H E).
Qed.

Lemma real_sessions_positive (l : list SessionData) (s : SessionData) :
  In s (real_sessions l) -> (0 < duration_hours s)%Q.
Proof.
  unfold real_sessions. rewrite List.filter_In. intros [_ H].
  apply Qltb_lt. exact H.
Qed.

Lemma real_sessions_drop (l1 l2 : list SessionData) (s : SessionData) :
  (duration_hours s == 0)%Q ->
  real_sessions (l1 ++ s :: l2) = real_sessions (l1 ++ l2).
Proof.
  intros Hz. rewrite !real_sessions_app. f_equal.
  unfold real_sessions at 1. simpl.
  destruct (Qltb 0 (duration_hours s)) eqn:E; [|reflexivity].
  apply Qltb_lt in E. rewrite Hz in E. exfalso. exact (Qlt_irrefl _ E).
Qed.

Lemma summarize_no_timestamps (p : Path) (a : scan) :
  timestamps a = [] ->
  start_time (summarize p a) = 0%Q /\
  end_time (summarize p a) = 0%Q /\
  duration_hours (summarize p a) = 0%Q.
Proof. intros H. unfold summarize. rewrite H. simpl. auto. Qed.

Lemma analyze_computed (off : Z) (now_check now_store : Q) (file : file_read)
    (p : Path) (self : UsageTracker) :
  computed self now_check p ->
  fst (_analyze_jsonl_file off now_check now_store file p self) =
  summarize p (analyze_lines off (lines_read file)).
Proof.
  intros H. unfold _analyze_jsonl_file.
  destruct (_cache self !! path_str p) as [cached|] eqn:Hin; [|reflexivity].
  destruct H as [H|H]; [rewrite Hin in H; discriminate|].
  apply Qle_bool_iff in H. unfold Qltb. rewrite H. reflexivity.
Qed.

Lemma visit_file_drops_zero (off : Z) (st : list SessionData * UsageTracker)
    (v : visit) :
  duration_hours
    (fst (_analyze_jsonl_file off (v_now_check v) (v_now_store v) (v_file v)
            (v_path v) (snd st))) = 0%Q ->
  fst (visit_file off st v) = fst st.
Proof.
  unfold visit_file.
  destruct (_analyze_jsonl_file off (v_now_check v) (v_now_store v)
              (v_file v) (v_path v) (snd st)) as [session self'].
  simpl. intros ->. reflexivity.
Qed.

(** C6. A transcript from which no timestamp is collected yields a
    session with start_time 0.0, end_time 0.0 and duration 0.0; the
    aggregator keeps exactly the analysed sessions of positive duration,
    so a session of zero duration is in no session list, and the weekly
    and 5-hour-cycle prompt counts and the weekly hours are computed from
    lists it is not in. *)
Theorem C6_zero_timestamps_session_excluded
    (off : Z) (py_round : nat -> Q -> Q) (now_check now_store : Q)
    (file : file_read) (p : Path) (self : UsageTracker)
    (Hts : timestamps (analyze_lines off (lines_read file)) = [])
    (Hcomputed : computed self now_check p) :
  let s := fst (_analyze_jsonl_file off now_check now_store file p self) in
  (start_time s = 0%Q /\ end_time s = 0%Q /\ duration_hours s = 0%Q) /\
  (forall projects self0 z,
      (duration_hours z == 0)%Q ->
      ~ In z (fst (get_all_sessions off projects self0))) /\
  (forall l1 l2 z,
      (duration_hours z == 0)%Q ->
      real_sessions (l1 ++ z :: l2) = real_sessions (l1 ++ l2)) /\
  (forall projects ctx now self0 u self1,
      calculate_usage off py_round projects ctx now self0 = Ok (u, self1) ->
      let kept := real_sessions (analysed_sessions off projects self0) in
      sessions u = week_filter self1 kept /\
      weekly_prompts u = sum_prompts (week_filter self1 kept) /\
      current_5h_prompts u = sum_prompts (cycle_filter self1 kept) /\
      weekly_sonnet_hours u =
        py_round 2%nat (fst (weekly_hours (week_filter self1 kept))) /\
      weekly_opus_hours u =
        py_round 2%nat (snd (weekly_hours (week_filter self1 kept)))).
Proof.
  cbv zeta. split; [|split; [|split]].
  - rewrite (analyze_computed _ _ _ _ _ _ Hcomputed).
    apply summarize_no_timestamps, Hts.
  - intros projects self0 z Hz Hin.
    rewrite get_all_sessions_real in Hin.
    apply real_sessions_positive in Hin. rewrite Hz in Hin.
    exact (Qlt_irrefl _ Hin).
  - intros l1 l2 z Hz. apply real_sessions_drop, Hz.
  - intros projects ctx now self0 u self1. unfold calculate_usage.
    pose proof (get_all_sessions_real off projects self0) as Hall.
    destruct (get_all_sessions off projects self0) as [all self'].
    simpl in Hall. subst all.
    destruct ctx as [context_data|]; simpl; [|discriminate].
    intros H. injection H as <- <-. simpl. auto.
Qed.

Lemma C6_zero_timestamps_witness :
  timestamps (analyze_lines 0 (lines_read undated_file)) = [] /\
  computed tracker0 10 undated_path /\
  let s := fst (_analyze_jsonl_file 0 10 11 undated_file undated_path tracker0) in
  start_time s = 0%Q /\ end_time s = 0%Q /\ duration_hours s = 0%Q.
Proof.
  split; [reflexivity|]. split; [left; reflexivity|].
  exact (proj1 (C6_zero_timestamps_session_excluded 0 (fun _ x => x) 10 11
                  undated_file undated_path tracker0 eq_refl
                  (or_introl eq_refl))).
Defined.

(** ** The epoch instant as a timestamp *)

Lemma apply_bump_timestamps (b : bump) (a : scan) :
  timestamps (apply_bump b a) = timestamps a.
Proof. destruct b; reflexivity. Qed.

Lemma collect_timestamp_zero (off : Z) (ts : json) (a : scan) (q : Q) :
  _parse_timestamp off ts = Some q -> (q == 0)%Q ->
  collect_timestamp off ts a = a.
Proof.
  intros Hp Hz. unfold collect_timestamp. rewrite Hp.
  apply Qeq_bool_iff in Hz. rewrite Hz.
  destruct (Py.truthy ts); reflexivity.
Qed.

Lemma collect_timestamp_none (off : Z) (ts : json) (a : scan) :
  _parse_timestamp off ts = None -> collect_timestamp off ts a = a.
Proof.
  intros Hp. unfold collect_timestamp. rewrite Hp.
  destruct (Py.truthy ts); reflexivity.
Qed.

Lemma analyze_lines_only_epoch (off : Z) (lines : list (option json)) :
  only_epoch_timestamps off lines = true ->
  timestamps (analyze_lines off lines) = [].
Proof.
  unfold analyze_lines.
  assert (forall a, timestamps a = [] ->
            only_epoch_timestamps off lines = true ->
            timestamps (fold_left (fun a line => analyze_line off line a)
                          lines a) = []) as Hgen.
  { induction lines as [|line lines IH]; intros a Ha Hall; simpl; [exact Ha|].
    simpl in Hall. apply andb_true_iff in Hall as [Hline Hrest].
    apply IH; [|exact Hrest].
    destruct line as [msg|]; simpl; [|exact Ha].
    destruct (Py.get msg "timestamp") as [ts|]; [|exact Ha].
    assert (collect_timestamp off ts a = a) as Hc.
    { destruct (_parse_timestamp off ts) as [epoch|] eqn:Ep.
      - apply (collect_timestamp_zero off ts a epoch Ep).
        apply Qeq_bool_iff. exact Hline.
      - apply collect_timestamp_none, Ep. }
    rewrite Hc.
    destruct (classify msg) as [b|]; [|exact Ha].
    rewrite apply_bump_timestamps. exact Ha. }
  intros H. apply Hgen; [reflexivity | exact H].
Qed.

(** C9. A timestamp that parses to exactly 0.0 epoch seconds, as
    1970-01-01T00:00:00Z does, is left out of the timestamp collection
    just like one that does not parse; a transcript whose only parsable
    timestamps are the epoch instant yields a session with start_time
    0.0, end_time 0.0 and duration 0.0, which the aggregator discards. *)
Theorem C9_epoch_timestamp_dropped
    (off : Z) (now_check now_store : Q) (file : file_read) (p : Path)
    (self : UsageTracker)
    (Honly : only_epoch_timestamps off (lines_read file) = true)
    (Hcomputed : computed self now_check p) :
  _parse_timestamp off (JStr "1970-01-01T00:00:00Z") = Some 0%Q /\
  (forall ts a q,
      _parse_timestamp off ts = Some q -> (q == 0)%Q ->
      collect_timestamp off ts a = a) /\
  (forall ts a,
      _parse_timestamp off ts = None -> collect_timestamp off ts a = a) /\
  let s := fst (_analyze_jsonl_file off now_check now_store file p self) in
  start_time s = 0%Q /\ end_time s = 0%Q /\ duration_hours s = 0%Q /\
  forall kept,
    fst (visit_file off (kept, self)
           {| v_path := p; v_now_check := now_check;
              v_now_store := now_store; v_file := file |}) = kept.
Proof.
  split; [reflexivity|].
  split; [intros ts a q; apply collect_timestamp_zero|].
  split; [intros ts a; apply collect_timestamp_none|].
  cbv zeta.
  pose proof (analyze_lines_only_epoch off _ Honly) as Hts.
  pose proof (summarize_no_timestamps p _ Hts) as (Hs & He & Hd).
  rewrite (analyze_computed _ _ _ _ _ _ Hcomputed).
  repeat split; try assumption.
  intros kept. apply visit_file_drops_zero. simpl.
  rewrite (analyze_computed _ _ _ _ _ _ Hcomputed). exact Hd.
Qed.

Lemma C9_epoch_timestamp_witness :
  only_epoch_timestamps 3600 (lines_read epoch_file) = true /\
  computed tracker0 10 undated_path /\
  let s := fst (_analyze_jsonl_file 3600 10 11 epoch_file undated_path
                  tracker0) in
  start_time s = 0%Q /\ end_time s = 0%Q /\ duration_hours s = 0%Q.
Proof.
  split; [reflexivity|]. split; [left; reflexivity|].
  pose proof (C9_epoch_timestamp_dropped 3600 10 11 epoch_file undated_path
                tracker0 eq_refl (or_introl eq_refl))
    as (_ & _ & _ & Hs & He & Hd & _).
  auto.
Defined.

(** ** Weekly hours per model family *)

Lemma Qnat_add (n m : nat) : (Qnat (n + m) == Qnat n + Qnat m)%Q.
Proof. unfold Qnat. rewrite Nat2Z.inj_add, inject_Z_plus. reflexivity. Qed.

Lemma Qnat_pos (n : nat) : (0 < n)%nat -> ~ (Qnat n == 0)%Q.
Proof.
  intros H E. unfold Qnat in E.
  assert (0 < inject_Z (Z.of_nat n))%Q as Hlt
    by (change 0%Q with (inject_Z 0); rewrite <- Zlt_Qlt; lia).
  rewrite E in Hlt. exact (Qlt_irrefl _ Hlt).
Qed.

Lemma add_hours_split (acc : Q * Q) (session : SessionData) :
  (0 < sonnet_responses session + opus_responses session)%nat ->
  (fst (add_hours acc session) + snd (add_hours acc session) ==
   fst acc + snd acc + duration_hours session)%Q.
Proof.
  intros Hpos. unfold add_hours.
  destruct (Nat.ltb_spec 0 (sonnet_responses session + opus_responses session))
    as [_|Hle]; [|lia].
  simpl. pose proof (Qnat_pos _ Hpos) as Hne.
  pose proof (Qnat_add (sonnet_responses session) (opus_responses session))
    as Hsum.
  set (t := Qnat (sonnet_responses session + opus_responses session)) in *.
  set (s := Qnat (sonnet_responses session)) in *.
  set (o := Qnat (opus_responses session)) in *.
  assert (s / t + o / t == 1)%Q as Hone.
  { unfold Qdiv. rewrite <- Qmult_plus_distr_l, <- Hsum.
    apply Qmult_inv_r. exact Hne. }
  transitivity (fst acc + snd acc + duration_hours session * (s / t + o / t))%Q.
  - ring.
  - rewrite Hone. ring.
Qed.

Lemma weekly_hours_total_from (l : list SessionData) : forall (acc : Q * Q) (h : Q),
  (fst acc + snd acc == h)%Q ->
  (fst (fold_left add_hours l acc) + snd (fold_left add_hours l acc) ==
   fold_left
     (fun h s =>
        if (0 <? sonnet_responses s + opus_responses s)%nat
        then (h + duration_hours s)%Q else h) l h)%Q.
Proof.
  induction l as [|s l IH]; intros acc h Hacc; simpl; [exact Hacc|].
  apply IH.
  destruct (Nat.ltb_spec 0 (sonnet_responses s + opus_responses s))
    as [Hpos|Hle].
  - rewrite (add_hours_split acc s Hpos), Hacc. reflexivity.
  - unfold add_hours.
    destruct (Nat.ltb_spec 0 (sonnet_responses s + opus_responses s));
      [lia | exact Hacc].
Qed.



(** ** Week start and cycle start *)

Lemma monday_weekday (d : Z) : ((d - (d + 3) mod 7 + 3) mod 7 = 0)%Z.
Proof.
  pose proof (Z_div_mod_eq_full (d + 3) 7) as H.
  replace (d - (d + 3) mod 7 + 3)%Z with (((d + 3) / 7) * 7)%Z by lia.
  apply Z_mod_mult.
Qed.

Lemma inject_Z_sub (a b : Z) : inject_Z (a - b) = (inject_Z a - inject_Z b)%Q.
Proof.
  unfold Z.sub. rewrite inject_Z_plus, inject_Z_opp. reflexivity.
Qed.

Lemma week_start_bounds (off : Z) (now : local_datetime) :
  (0 <= seconds_of_day now)%Q -> (seconds_of_day now < 86400)%Q ->
  (_get_week_start off now <= local_timestamp off now)%Q /\
  (local_timestamp off now - _get_week_start off now < 7 * 86400)%Q.
Proof.
  intros H0 H1. unfold _get_week_start, local_timestamp, at_midnight,
    minus_days, weekday. simpl.
  pose proof (Z.mod_pos_bound (day_number now + 3) 7 ltac:(lia)) as [Hw0 Hw6].
  set (w := ((day_number now + 3) mod 7)%Z) in *.
  assert (0 <= inject_Z w)%Q as Hq0
    by (change 0%Q with (inject_Z 0); rewrite <- Zle_Qle; exact Hw0).
  assert (inject_Z w <= 6)%Q as Hq6
    by (change 6%Q with (inject_Z 6); rewrite <- Zle_Qle; lia).
  assert (inject_Z ((day_number now - w) * 86400 - off) ==
          inject_Z (day_number now * 86400 - off) - inject_Z w * 86400)%Q
    as Heq.
  { rewrite !inject_Z_sub, !inject_Z_mult, inject_Z_sub.
    change (inject_Z 86400) with 86400%Q. ring. }
  rewrite Heq. split; lra.
Qed.

Lemma cycle_start_floor (now : Q) :
  (0 <= now)%Q ->
  _get_5h_cycle_start now = inject_Z (Qfloor (now / 3600 / 5) * 5 * 3600).
Proof.
  intros H. unfold _get_5h_cycle_start, py_int.
  assert (0 <= now / 3600 / 5)%Q as Hx.
  { unfold Qdiv. apply Qmult_le_0_compat; [apply Qmult_le_0_compat|];
      [exact H | unfold Qle; simpl; lia | unfold Qle; simpl; lia]. }
  apply Qle_bool_iff in Hx. rewrite Hx. reflexivity.
Qed.

Lemma floor_cycle_bounds (now : Q) :
  let c := inject_Z (Qfloor (now / 3600 / 5) * 5 * 3600) in
  (c <= now)%Q /\ (now < c + 18000)%Q.
Proof.
  cbv zeta. set (x := (now / 3600 / 5)%Q).
  assert (now == x * 18000)%Q as Hnow by (unfold x; field).
  pose proof (Qfloor_le x) as Hlo. pose proof (Qlt_floor x) as Hhi.
  rewrite inject_Z_plus in Hhi. change (inject_Z 1) with 1%Q in Hhi.
  rewrite !inject_Z_mult.
  change (inject_Z 5) with 5%Q. change (inject_Z 3600) with 3600%Q.
  split; lra.
Qed.

(** C7. The week start is the timestamp of a local midnight on a Monday,
    not later than the current local time and less than seven days before
    it; the cycle start is floor(now / 3600 / 5) * 5 * 3600, a multiple
    of five hours that is not later than the current time and less than
    five hours before it. *)
Theorem C7_window_starts (off : Z) (now_local : local_datetime) (now : Q)
    (Hsec0 : (0 <= seconds_of_day now_local)%Q)
    (Hsec1 : (seconds_of_day now_local < 86400)%Q)
    (Hnow : (0 <= now)%Q) :
  (exists monday : Z,
      weekday {| day_number := monday; seconds_of_day := 0 |} = 0%Z /\
      _get_week_start off now_local =
        local_timestamp off {| day_number := monday; seconds_of_day := 0 |}) /\
  (_get_week_start off now_local <= local_timestamp off now_local)%Q /\
  (local_timestamp off now_local - _get_week_start off now_local
   < 7 * 86400)%Q /\
  _get_5h_cycle_start now = inject_Z (Qfloor (now / 3600 / 5) * 5 * 3600) /\
  (exists k : Z, _get_5h_cycle_start now = inject_Z (k * (5 * 3600))) /\
  (_get_5h_cycle_start now <= now)%Q /\
  (now < _get_5h_cycle_start now + 5 * 3600)%Q.
Proof.
  destruct (week_start_bounds off now_local Hsec0 Hsec1) as [Hle Hlt].
  pose proof (floor_cycle_bounds now) as [Hc0 Hc1].
  rewrite (cycle_start_floor now Hnow).
  repeat split; try assumption.
  - exists (day_number now_local - weekday now_local)%Z. split.
    + unfold weekday. simpl. apply monday_weekday.
    + reflexivity.
  - exists (Qfloor (now / 3600 / 5)). f_equal. ring.
Qed.

Lemma C7_window_starts_witness :
  (0 <= seconds_of_day sample_local_now)%Q /\
  (seconds_of_day sample_local_now < 86400)%Q /\
  (0 <= 1704250000)%Q /\
  (_get_week_start 3600 sample_local_now
   <= local_timestamp 3600 sample_local_now)%Q /\
  (_get_5h_cycle_start 1704250000 <= 1704250000)%Q.
Proof.
  assert (0 <= seconds_of_day sample_local_now)%Q as H0
    by (unfold Qle; simpl; lia).
  assert (seconds_of_day sample_local_now < 86400)%Q as H1
    by (unfold Qlt; simpl; lia).
  assert (0 <= 1704250000)%Q as H2 by (unfold Qle; simpl; lia).
  pose proof (C7_window_starts 3600 sample_local_now 1704250000 H0 H1 H2)
    as (_ & Hw & _ & _ & _ & Hc & _).
  auto.
Defined.

(** ** Context estimate *)

Section ContextFacts.

Variable dumps_len : json -> nat.
Variable py_round : nat -> Q -> Q.



End ContextFacts.

(** *** The code extracts what section 4.4 describes *)





Section Extraction.

Variable dumps_len : json -> nat.







End Extraction.

(** *** Rounding to one decimal *)





(** ** The estimator's "no value" results *)

Section NoValue.

Variable dumps_len : json -> nat.
Variable py_round : nat -> Q -> Q.
Variable path_exists : string -> result bool.
Variable iterdir : string -> result (list dir_entry).
Variable path_is_dir : string -> result bool.
Variable glob_jsonl : string -> result (list string).
Variable st_mtime : string -> result Q.
Variable st_size : string -> result Z.
Variable read_file : string -> file_read.
Variable time_at : string -> Q.
Variables claude_projects project_path : string.

Local Abbreviation resolved :=
  (resolve_project_dir path_exists iterdir path_is_dir glob_jsonl st_mtime
     time_at claude_projects project_path).

Local Abbreviation estimate :=
  (estimate_context_usage dumps_len py_round path_exists iterdir path_is_dir
     glob_jsonl st_mtime st_size read_file time_at claude_projects
     project_path).

Lemma no_directory_no_value : resolved = Ok None -> estimate = Ok None.
Proof.
  unfold estimate_context_usage. intros ->. reflexivity.
Qed.

Lemma no_transcript_no_value (dir : string) :
  resolved = Ok (Some dir) -> glob_jsonl dir = Ok [] -> estimate = Ok None.
Proof.
  unfold estimate_context_usage, current_session.
  intros -> Hglob. simpl. rewrite Hglob. reflexivity.
Qed.

Lemma read_error_no_value (dir f : string) :
  resolved = Ok (Some dir) ->
  current_session glob_jsonl st_mtime dir = Ok (Some f) ->
  st_size f = Raised \/ read_failed (read_file f) = true ->
  estimate = Ok None.
Proof.
  unfold estimate_context_usage.
  intros -> Hcur Herr. simpl. rewrite Hcur. simpl. f_equal.
  unfold context_of. destruct (st_size f) as [size|]; [|reflexivity].
  destruct Herr as [Herr|Herr]; [discriminate|]. rewrite Herr. reflexivity.
Qed.

(** Outside the [try]: an error of the [stat] that ranks the transcripts
    of the resolved directory is not caught. *)
Lemma mtime_error_propagates (dir f : string) (rest : list string) :
  resolved = Ok (Some dir) ->
  glob_jsonl dir = Ok (f :: rest) ->
  st_mtime f = Raised ->
  estimate = Raised.
Proof.
  unfold estimate_context_usage, current_session.
  intros -> Hglob Hm. simpl. rewrite Hglob. simpl. rewrite Hm. reflexivity.
Qed.

End NoValue.

(** C8 (as amended). Whenever the search ends without a project
    directory under the storage root, or the resolved directory contains
    no transcript file, or an error occurs while the selected transcript
    is read (taking its size, opening it, iterating over it),
    [estimate_context_usage] returns [None] and does not raise. *)
Theorem C8_no_value_instead_of_raising
    (dumps_len : json -> nat) (py_round : nat -> Q -> Q)
    (path_exists : string -> result bool)
    (iterdir : string -> result (list dir_entry))
    (path_is_dir : string -> result bool)
    (glob_jsonl : string -> result (list string))
    (st_mtime : string -> result Q) (st_size : string -> result Z)
    (read_file : string -> file_read) (time_at : string -> Q)
    (claude_projects project_path : string)
    (Hcase :
       let resolved :=
         resolve_project_dir path_exists iterdir path_is_dir glob_jsonl
           st_mtime time_at claude_projects project_path in
       resolved = Ok None \/
       (exists dir, resolved = Ok (Some dir) /\ glob_jsonl dir = Ok []) \/
       (exists dir f,
           resolved = Ok (Some dir) /\
           current_session glob_jsonl st_mtime dir = Ok (Some f) /\
           (st_size f = Raised \/ read_failed (read_file f) = true))) :
  estimate_context_usage dumps_len py_round path_exists iterdir path_is_dir
    glob_jsonl st_mtime st_size read_file time_at claude_projects project_path
  = Ok None.
Proof.
  cbv zeta in Hcase.
  destruct Hcase as [H | [(dir & H & Hg) | (dir & f & H & Hc & He)]].
  - apply no_directory_no_value. exact H.
  - apply (no_transcript_no_value _ _ _ _ _ _ _ _ _ _ _ _ dir H Hg).
  - apply (read_error_no_value _ _ _ _ _ _ _ _ _ _ _ _ dir f H Hc He).
Qed.

Lemma C8_no_value_witness :
  estimate_context_usage (fun _ => 0%nat) (fun _ x => x) everything_exists
    no_entries everything_exists one_transcript mtime_one unreadable_size
    reads_nothing (fun _ => 0%Q) "/home/u/.claude/projects" "/home/u/app"
  = Ok None.
Proof.
  apply C8_no_value_instead_of_raising.
  right. right.
  exists "/home/u/.claude/projects/-home-u-app",
         "/home/u/.claude/projects/-home-u-app/s1.jsonl".
  split; [reflexivity|]. split; [reflexivity|]. left. reflexivity.
Defined.

(** C8 as stated fails: the estimator does propagate a failure. The
    project directory exists and lists one transcript whose [stat]
    raises; the [max] over modification times of line 135 is outside the
    [try], and [estimate_context_usage] raises. *)
Lemma C8_mtime_error_raises :
  estimate_context_usage (fun _ => 0%nat) (fun _ x => x) everything_exists
    no_entries everything_exists one_transcript mtime_unavailable size_600
    reads_hello (fun _ => 0%Q) "/home/u/.claude/projects" "/home/u/app"
  = Raised.
Proof. reflexivity. Qed.

(** ** The analyzer's cache *)

Section Cache.

Variable off : Z.

(** A hit returns the stored session and reads nothing: the result does
    not depend on the file. *)
Lemma cache_hit (now_check now_store : Q) (file : file_read) (p : Path)
    (self : UsageTracker) (cached : SessionData) :
  _cache self !! path_str p = Some cached ->
  (now_check - _cache_time self < cache_duration self)%Q ->
  _analyze_jsonl_file off now_check now_store file p self = (cached, self).
Proof.
  intros Hin Hfresh. unfold _analyze_jsonl_file. rewrite Hin.
  apply Qltb_lt in Hfresh. rewrite Hfresh. reflexivity.
Qed.

Lemma analyze_stores (now_check now_store : Q) (file : file_read) (p : Path)
    (self : UsageTracker) :
  let r := _analyze_jsonl_file off now_check now_store file p self in
  _cache (snd r) !! path_str p = Some (fst r) /\
  cache_duration (snd r) = cache_duration self /\
  (_cache_time (snd r) = now_store \/
   (snd r = self /\
    (now_check - _cache_time self < cache_duration self)%Q)).
Proof.
  cbv zeta. unfold _analyze_jsonl_file.
  destruct (_cache self !! path_str p) as [cached|] eqn:Hin.
  - destruct (Qltb (now_check - _cache_time self) (cache_duration self))
      eqn:Hfresh; simpl.
    + apply Qltb_lt in Hfresh. auto.
    + rewrite lookup_insert_eq. auto.
  - simpl. rewrite lookup_insert_eq. auto.
Qed.

Lemma analyze_recomputed_time (now_check now_store : Q) (file : file_read)
    (p : Path) (self : UsageTracker) :
  computed self now_check p ->
  _cache_time (snd (_analyze_jsonl_file off now_check now_store file p self))
  = now_store.
Proof.
  intros H. unfold _analyze_jsonl_file.
  destruct (_cache self !! path_str p) as [cached|] eqn:Hin; [|reflexivity].
  destruct H as [H|H]; [rewrite Hin in H; discriminate|].
  apply Qle_bool_iff in H. unfold Qltb. rewrite H. reflexivity.
Qed.

(** Two analyses of one path in a row, the first one computed and the
    second within the time-to-live of it: the second returns the same
    session, whatever the file holds by then. *)
Lemma second_analysis_from_cache (t1 t1' t2 t2' : Q) (file file' : file_read)
    (p : Path) (self : UsageTracker) :
  computed self t1 p ->
  (t1 <= t1')%Q ->
  (t2 - t1 < cache_duration self)%Q ->
  let first := _analyze_jsonl_file off t1 t1' file p self in
  _analyze_jsonl_file off t2 t2' file' p (snd first) = first.
Proof.
  intros Hcomputed Hmono Hfresh. cbv zeta.
  destruct (analyze_stores t1 t1' file p self) as (Hin & Hdur & _).
  pose proof (analyze_recomputed_time t1 t1' file p self Hcomputed) as Htime.
  rewrite (surjective_pairing (_analyze_jsonl_file off t1 t1' file p self))
    at 2.
  apply cache_hit; [exact Hin|]. rewrite Hdur, Htime. lra.
Qed.

End Cache.

(** C3, on the code: the entry of [a] was computed at time 100 and is
    requested again at time 106, more than the 5 seconds of the
    time-to-live later; because the analysis of [b] at 104 moved the one
    [_cache_time] the tracker keeps for all entries, the request is served
    from the cache with the one-hour session, although analysing the
    file would give three hours. *)
Theorem C3_stale_entry_served :
  Qltb (106 - 100) (cache_duration tracker0) = false /\
  run_a2 = (fst run_a1, snd run_b) /\
  (duration_hours (fst run_a2) == 1)%Q /\
  (duration_hours (summarize path_a (analyze_lines 0 (lines_read file_a2)))
   == 3)%Q.
Proof.
  split; [reflexivity|]. split; [|split]; vm_compute; reflexivity.
Qed.

(** ** Timestamp parser against a reference *)

Lemma contains_dot_cons (c : ascii) (s : string) :
  Py.contains "." (String c s) = Ascii.eqb c "." || Py.contains "." s.
Proof.
  rewrite contains_eq.
  change (String.prefix "." (String c s))
    with (if ascii_dec "." c then String.prefix "" s else false).
  destruct (ascii_dec "." c) as [<-|Hne].
  - destruct s; reflexivity.
  - destruct (Ascii.eqb_spec c "."); [congruence | reflexivity].
Qed.

Lemma truncate_no_dot (s : string) :
  Py.contains "." s = false -> truncate_fraction s = s.
Proof.
  induction s as [|c s IH]; [reflexivity|].
  rewrite contains_dot_cons. intros H.
  apply orb_false_iff in H as [Hc Hs]. simpl. rewrite Hc, (IH Hs).
  reflexivity.
Qed.

(** Without a fraction the parser is the reference. *)
Lemma parse_agrees_without_fraction (off : Z) (ts : string) :
  Py.contains "." ts = false -> ts <> "" -> ts <> "null" ->
  _parse_timestamp_str off ts = reference_epoch off ts.
Proof.
  intros Hdot Hne Hnull. unfold _parse_timestamp_str, reference_epoch.
  rewrite Hdot, (truncate_no_dot ts Hdot).
  apply String.eqb_neq in Hne, Hnull. rewrite Hne, Hnull. reflexivity.
Qed.

Lemma split_head_dot (base rest : string) :
  Py.contains "." base = false ->
  Py.split_head "." (base ++ String "." rest) = base.
Proof.
  induction base as [|c base IH].
  - intros _. rewrite app_nil. reflexivity.
  - rewrite contains_dot_cons. intros H.
    apply orb_false_iff in H as [Hc Hb].
    rewrite app_cons. simpl. rewrite Hc, (IH Hb). reflexivity.
Qed.

Lemma truncate_at_dot (base rest : string) :
  Py.contains "." base = false ->
  truncate_fraction (base ++ String "." rest) = base ++ drop_digits rest.
Proof.
  induction base as [|c base IH].
  - intros _. rewrite !app_nil. reflexivity.
  - rewrite contains_dot_cons. intros H.
    apply orb_false_iff in H as [Hc Hb].
    rewrite !app_cons. simpl. rewrite Hc, (IH Hb). reflexivity.
Qed.

Lemma drop_digits_then (frac rest : string) :
  all_digits frac = true -> drop_digits (frac ++ rest) = drop_digits rest.
Proof.
  induction frac as [|c frac IH]; intros H.
  - rewrite app_nil. reflexivity.
  - simpl in H. apply andb_true_iff in H as [Hc Hf].
    rewrite app_cons. simpl. rewrite Hc. exact (IH Hf).
Qed.

Lemma contains_dot_app (base rest : string) :
  Py.contains "." (base ++ String "." rest) = true.
Proof.
  induction base as [|c base IH].
  - rewrite app_nil, contains_dot_cons. reflexivity.
  - rewrite app_cons, contains_dot_cons, IH. apply orb_true_r.
Qed.

(** With a fraction that is followed by "Z" and nothing else, the parser
    is the reference as well. *)
Lemma parse_agrees_with_utc_fraction (off : Z) (base frac : string) :
  Py.contains "." base = false -> all_digits frac = true ->
  _parse_timestamp_str off (base ++ String "." (frac ++ "Z")) =
  reference_epoch off (base ++ String "." (frac ++ "Z")).
Proof.
  intros Hbase Hfrac. unfold _parse_timestamp_str, reference_epoch.
  rewrite contains_dot_app, (split_head_dot _ _ Hbase),
    (truncate_at_dot _ _ Hbase), (drop_digits_then _ _ Hfrac).
  change (drop_digits "Z") with "Z".
  destruct (String.eqb_spec (base ++ String "." (frac ++ "Z")) "") as [E|_].
  { destruct base; [rewrite app_nil in E | rewrite app_cons in E];
      discriminate. }
  destruct (String.eqb_spec (base ++ String "." (frac ++ "Z")) "null")
    as [E|_]; [|reflexivity].
  pose proof (contains_dot_app base (frac ++ "Z")) as Hd.
  rewrite E in Hd. discriminate.
Qed.

(** C4, on the code: a timestamp with fractional seconds and the offset
    +05:00. The parser cuts the string at the dot and appends "Z", so it
    returns noon UTC, 1704110400; the reference on the truncated timestamp
    keeps the offset and returns 1704092400, five hours earlier. A naive
    timestamp with a fraction is likewise read as UTC, not as local time. *)
Theorem C4_offset_lost_with_fraction (off : Z) :
  _parse_timestamp_str off "2024-01-01T12:00:00.500+05:00"
    = Some 1704110400%Q /\
  reference_epoch off "2024-01-01T12:00:00.500+05:00" = Some 1704092400%Q /\
  _parse_timestamp_str 3600 "2024-01-01T12:00:00.500" = Some 1704110400%Q /\
  reference_epoch 3600 "2024-01-01T12:00:00.500" = Some 1704106800%Q /\
  _parse_timestamp_str off "2024-01-01T12:00:00.500Z"
    = reference_epoch off "2024-01-01T12:00:00.500Z".
Proof. repeat split; reflexivity. Qed.

(** * Further properties of the code *)

(** ** The scan of a transcript *)

Section ScanFacts.

Variable off : Z.

Lemma scan_add_0_r (a : scan) : scan_add a scan0 = a.
Proof.
  destruct a as [ts p s o]. unfold scan_add. simpl.
  rewrite app_nil_r, !Nat.add_0_r. reflexivity.
Qed.

Lemma scan_add_0_l (a : scan) : scan_add scan0 a = a.
Proof. destruct a. reflexivity. Qed.

Lemma scan_add_assoc (a b c : scan) :
  scan_add (scan_add a b) c = scan_add a (scan_add b c).
Proof.
  unfold scan_add. simpl. rewrite <- app_assoc, !Nat.add_assoc. reflexivity.
Qed.

Lemma collect_timestamp_add (ts : json) (a : scan) :
  collect_timestamp off ts a = scan_add a (collect_timestamp off ts scan0).
Proof.
  unfold collect_timestamp.
  destruct (Py.truthy ts); [|symmetry; apply scan_add_0_r].
  destruct (_parse_timestamp off ts) as [epoch|];
    [|symmetry; apply scan_add_0_r].
  destruct (Qeq_bool epoch 0); [symmetry; apply scan_add_0_r|].
  unfold scan_add. simpl. rewrite !Nat.add_0_r. reflexivity.
Qed.

Lemma apply_bump_add (b : bump) (a : scan) :
  apply_bump b a = scan_add a (apply_bump b scan0).
Proof.
  destruct a as [ts p s o].
  destruct b; unfold scan_add; simpl;
    rewrite ?app_nil_r, ?Nat.add_0_r, ?Nat.add_1_r; reflexivity.
Qed.

Lemma analyze_line_add (line : option json) (a : scan) :
  analyze_line off line a = scan_add a (analyze_line off line scan0).
Proof.
  unfold analyze_line.
  destruct line as [msg|]; [|symmetry; apply scan_add_0_r].
  destruct (Py.get msg "timestamp") as [ts|]; [|symmetry; apply scan_add_0_r].
  destruct (classify msg) as [b|].
  - rewrite apply_bump_add, (apply_bump_add b (collect_timestamp off ts scan0)).
    rewrite collect_timestamp_add, scan_add_assoc. reflexivity.
  - apply collect_timestamp_add.
Qed.

Lemma fold_analyze_add (lines : list (option json)) : forall a : scan,
  fold_left (fun a line => analyze_line off line a) lines a =
  scan_add a (analyze_lines off lines).
Proof.
  unfold analyze_lines.
  induction lines as [|line lines IH]; intros a; simpl.
  - symmetry. apply scan_add_0_r.
  - rewrite IH, (IH (analyze_line off line scan0)).
    rewrite (analyze_line_add line a), scan_add_assoc. reflexivity.
Qed.

(** X1. The scan of a transcript is the scan of its first part followed
    by the scan of the rest: the three counters add up and the
    timestamps are collected in the order of the lines. *)
Theorem X1_scan_of_concatenation (l1 l2 : list (option json)) :
  analyze_lines off (l1 ++ l2) =
  scan_add (analyze_lines off l1) (analyze_lines off l2).
Proof.
  unfold analyze_lines at 1. rewrite fold_left_app.
  fold (analyze_lines off l1). apply fold_analyze_add.
Qed.

Lemma analyze_lines_cons (line : option json) (lines : list (option json)) :
  analyze_lines off (line :: lines) =
  scan_add (analyze_line off line scan0) (analyze_lines off lines).
Proof.
  unfold analyze_lines at 1. simpl. apply fold_analyze_add.
Qed.

Lemma skipped_line (line : option json) :
  is_object_line line = false -> analyze_line off line scan0 = scan0.
Proof.
  destruct line as [[| | | | |fields]|]; simpl; intros H;
    try reflexivity; discriminate.
Qed.

(** X2. Lines that do not parse, and lines that parse to something other
    than a JSON object, never change the result: the scan equals the scan
    of the object lines alone. *)
Theorem X2_only_object_lines_matter (lines : list (option json)) :
  analyze_lines off lines =
  analyze_lines off (List.filter is_object_line lines).
Proof.
  induction lines as [|line lines IH]; [reflexivity|].
  simpl. destruct (is_object_line line) eqn:E.
  - rewrite !analyze_lines_cons, IH. reflexivity.
  - rewrite analyze_lines_cons, (skipped_line line E), scan_add_0_l.
    exact IH.
Qed.

Lemma analyze_line_counts (line : option json) :
  let a := analyze_line off line scan0 in
  (prompts a + sonnet a + opus a <= 1)%nat /\
  (List.length (timestamps a) <= 1)%nat.
Proof.
  cbv zeta. unfold analyze_line.
  destruct line as [msg|]; [|simpl; lia].
  destruct (Py.get msg "timestamp") as [ts|]; [|simpl; lia].
  destruct (collect_timestamp_counters off ts scan0) as (Hp & Hs & Ho).
  assert (List.length (timestamps (collect_timestamp off ts scan0)) <= 1)%nat
    as Hlen.
  { unfold collect_timestamp. destruct (Py.truthy ts); [|simpl; lia].
    destruct (_parse_timestamp off ts) as [epoch|]; [|simpl; lia].
    destruct (Qeq_bool epoch 0); simpl; lia. }
  destruct (classify msg) as [b|].
  - rewrite apply_bump_timestamps. split; [|exact Hlen].
    destruct b; simpl; rewrite Hp, Hs, Ho; simpl; lia.
  - rewrite Hp, Hs, Ho. simpl. lia.
Qed.

(** X3. Every line is counted at most once: the prompts and the two
    response counters together never exceed the number of lines that
    parsed to an object, and neither does the number of timestamps. *)
Theorem X3_counters_bounded_by_lines (lines : list (option json)) :
  let a := analyze_lines off lines in
  let n := List.length (List.filter is_object_line lines) in
  (prompts a + sonnet a + opus a <= n)%nat /\
  (List.length (timestamps a) <= n)%nat /\
  (n <= List.length lines)%nat.
Proof.
  cbv zeta. induction lines as [|line lines IH]; [simpl; lia|].
  rewrite analyze_lines_cons.
  destruct (analyze_line_counts line) as [Hc Ht].
  destruct IH as (IHc & IHt & IHn).
  unfold scan_add. simpl. rewrite length_app.
  destruct (is_object_line line) eqn:E; simpl.
  - lia.
  - rewrite (skipped_line line E) in *. simpl in *. lia.
Qed.

End ScanFacts.

(** ** The bounds of a session *)

Lemma Qmin_list_spec (l : list Q) : forall x : Q,
  In (Qmin_list x l) (x :: l) /\
  List.Forall (fun t => (Qmin_list x l <= t)%Q) (x :: l).
Proof.
  unfold Qmin_list. induction l as [|y l IH]; intros x; simpl.
  - split; [auto|]. repeat constructor. apply Qle_refl.
  - destruct (IH (if Qle_bool y x then y else x)) as [Hin Hall].
    set (m := fold_left _ l _) in *.
    inversion Hall as [|x' l' Hm Hrest]; subst.
    split.
    + destruct Hin as [Hin|Hin]; [|auto].
      destruct (Qle_bool y x); rewrite <- Hin; auto.
    + destruct (Qle_bool y x) eqn:E.
      * apply Qle_bool_iff in E. repeat constructor; try assumption.
        apply (Qle_trans _ y); assumption.
      * assert (x < y)%Q as Hlt
          by (apply Qnot_le_lt; intros H; apply Qle_bool_iff in H; congruence).
        repeat constructor; try assumption.
        apply (Qle_trans _ x); [assumption | apply Qlt_le_weak, Hlt].
Qed.

Lemma Qmax_list_spec (l : list Q) : forall x : Q,
  In (Qmax_list x l) (x :: l) /\
  List.Forall (fun t => (t <= Qmax_list x l)%Q) (x :: l).
Proof.
  unfold Qmax_list. induction l as [|y l IH]; intros x; simpl.
  - split; [auto|]. repeat constructor. apply Qle_refl.
  - destruct (IH (if Qle_bool x y then y else x)) as [Hin Hall].
    set (m := fold_left _ l _) in *.
    inversion Hall as [|x' l' Hm Hrest]; subst.
    split.
    + destruct Hin as [Hin|Hin]; [|auto].
      destruct (Qle_bool x y); rewrite <- Hin; auto.
    + destruct (Qle_bool x y) eqn:E.
      * apply Qle_bool_iff in E. repeat constructor; try assumption.
        apply (Qle_trans _ y); assumption.
      * assert (y < x)%Q as Hlt
          by (apply Qnot_le_lt; intros H; apply Qle_bool_iff in H; congruence).
        repeat constructor; try assumption.
        apply (Qle_trans _ x); [apply Qlt_le_weak, Hlt | assumption].
Qed.

Lemma collected_nonzero (off : Z) (lines : list (option json)) :
  List.Forall (fun t => ~ (t == 0)%Q) (timestamps (analyze_lines off lines)).
Proof.
  induction lines as [|line lines IH]; [constructor|].
  rewrite analyze_lines_cons. unfold scan_add. simpl.
  apply Forall_app. split; [|exact IH].
  unfold analyze_line. destruct line as [msg|]; [|constructor].
  destruct (Py.get msg "timestamp") as [ts|]; [|constructor].
  assert (List.Forall (fun t => ~ (t == 0)%Q)
            (timestamps (collect_timestamp off ts scan0))) as H.
  { unfold collect_timestamp. destruct (Py.truthy ts); [|constructor].
    destruct (_parse_timestamp off ts) as [epoch|]; [|constructor].
    destruct (Qeq_bool epoch 0) eqn:E; [constructor|].
    repeat constructor. intros Hz. apply Qeq_bool_iff in Hz. congruence. }
  destruct (classify msg) as [b|]; [rewrite apply_bump_timestamps|]; exact H.
Qed.

Lemma summarize_bounds (p : Path) (a : scan) :
  let s := summarize p a in
  (start_time s <= end_time s)%Q /\
  (0 <= duration_hours s)%Q /\
  (duration_hours s * 3600 == end_time s - start_time s)%Q /\
  List.Forall (fun t => (start_time s <= t)%Q /\ (t <= end_time s)%Q)
    (timestamps a) /\
  (timestamps a <> [] ->
   In (start_time s) (timestamps a) /\ In (end_time s) (timestamps a)).
Proof.
  cbv zeta. unfold summarize.
  destruct (timestamps a) as [|t ts] eqn:E; simpl.
  - repeat split; try (unfold Qle; simpl; lia); try constructor;
      try reflexivity; congruence.
  - destruct (Qmin_list_spec ts t) as [Hmin_in Hmin].
    destruct (Qmax_list_spec ts t) as [Hmax_in Hmax].
    set (lo := Qmin_list t ts) in *. set (hi := Qmax_list t ts) in *.
    assert (lo <= hi)%Q as Hle.
    { inversion Hmin; inversion Hmax; subst.
      apply (Qle_trans _ t); assumption. }
    split; [exact Hle|]. split; [|split; [|split]].
    + unfold Qdiv. apply Qmult_le_0_compat; [lra|].
      unfold Qle; simpl; lia.
    + field.
    + rewrite List.Forall_forall in *. intros x Hx. split; auto.
    + intros _. split; assumption.
Qed.

(** X4. In the session computed from a transcript, the start is not
    after the end, every collected timestamp lies between them, the
    duration is their difference in hours and is not negative; when a
    timestamp was collected, start and end are themselves collected
    timestamps. *)
Theorem X4_session_bounds (off : Z) (p : Path) (lines : list (option json)) :
  let a := analyze_lines off lines in
  let s := summarize p a in
  (start_time s <= end_time s)%Q /\
  (0 <= duration_hours s)%Q /\
  (duration_hours s * 3600 == end_time s - start_time s)%Q /\
  List.Forall (fun t => (start_time s <= t)%Q /\ (t <= end_time s)%Q)
    (timestamps a) /\
  (timestamps a = [] \/
   (In (start_time s) (timestamps a) /\ In (end_time s) (timestamps a))).
Proof.
  cbv zeta.
  destruct (summarize_bounds p (analyze_lines off lines))
    as (H1 & H2 & H3 & H4 & H5).
  repeat split; try assumption.
  destruct (timestamps (analyze_lines off lines)) as [|t ts] eqn:E;
    [left; reflexivity | right; apply H5; discriminate].
Qed.

(** X5. The start of a session computed from a transcript is 0.0 only
    when no timestamp was collected: a collected timestamp is never zero,
    and start and end are collected timestamps. *)
Theorem X5_zero_start_means_no_timestamps
    (off : Z) (p : Path) (lines : list (option json)) :
  let a := analyze_lines off lines in
  let s := summarize p a in
  ((start_time s == 0)%Q <-> timestamps a = []) /\
  ((end_time s == 0)%Q <-> timestamps a = []).
Proof.
  cbv zeta.
  pose proof (collected_nonzero off lines) as Hnz.
  pose proof (summarize_bounds p (analyze_lines off lines))
    as (_ & _ & _ & _ & Hin).
  cbv zeta in Hin.
  destruct (timestamps (analyze_lines off lines)) as [|t ts] eqn:E.
  - unfold summarize. rewrite E. simpl. split; split; reflexivity || auto.
  - destruct (Hin ltac:(discriminate)) as [Hs He].
    rewrite List.Forall_forall in Hnz.
    split; split; try discriminate; intros Hz; exfalso.
    + exact (Hnz _ Hs Hz).
    + exact (Hnz _ He Hz).
Qed.

(** ** The order of the lines *)

Lemma scan_equiv_refl (a : scan) : scan_equiv a a.
Proof. unfold scan_equiv. auto. Qed.

Lemma scan_equiv_trans (a b c : scan) :
  scan_equiv a b -> scan_equiv b c -> scan_equiv a c.
Proof.
  intros (H1 & H2 & H3 & H4) (G1 & G2 & G3 & G4). unfold scan_equiv.
  repeat split; try congruence. exact (Permutation_trans H1 G1).
Qed.

Lemma analyze_lines_perm (off : Z) (l1 l2 : list (option json)) :
  Permutation l1 l2 ->
  scan_equiv (analyze_lines off l1) (analyze_lines off l2).
Proof.
  induction 1 as [|x l l' Hp IH|x y l|l l' l'' H1 IH1 H2 IH2].
  - apply scan_equiv_refl.
  - rewrite !analyze_lines_cons. destruct IH as (I1 & I2 & I3 & I4).
    unfold scan_equiv, scan_add. simpl. repeat split; try congruence.
    apply Permutation_app_head. exact I1.
  - rewrite !analyze_lines_cons. unfold scan_equiv, scan_add. simpl.
    repeat split; try lia. rewrite !app_assoc.
    apply Permutation_app_tail, Permutation_app_comm.
  - exact (scan_equiv_trans _ _ _ IH1 IH2).
Qed.

Lemma summarize_equiv (p : Path) (a b : scan) :
  scan_equiv a b ->
  (start_time (summarize p a) == start_time (summarize p b))%Q /\
  (end_time (summarize p a) == end_time (summarize p b))%Q /\
  (duration_hours (summarize p a) == duration_hours (summarize p b))%Q /\
  prompt_count (summarize p a) = prompt_count (summarize p b) /\
  sonnet_responses (summarize p a) = sonnet_responses (summarize p b) /\
  opus_responses (summarize p a) = opus_responses (summarize p b).
Proof.
  intros (Hperm & Hp & Hs & Ho).
  assert (prompt_count (summarize p a) = prompts a /\
          sonnet_responses (summarize p a) = sonnet a /\
          opus_responses (summarize p a) = opus a) as (Ea1 & Ea2 & Ea3)
    by (unfold summarize; destruct (timestamps a); simpl; auto).
  assert (prompt_count (summarize p b) = prompts b /\
          sonnet_responses (summarize p b) = sonnet b /\
          opus_responses (summarize p b) = opus b) as (Eb1 & Eb2 & Eb3)
    by (unfold summarize; destruct (timestamps b); simpl; auto).
  destruct (summarize_bounds p a) as (_ & _ & Hda & Ha & Hina).
  destruct (summarize_bounds p b) as (_ & _ & Hdb & Hb & Hinb).
  cbv zeta in *. rewrite List.Forall_forall in Ha, Hb.
  assert ((start_time (summarize p a) == start_time (summarize p b))%Q /\
          (end_time (summarize p a) == end_time (summarize p b))%Q)
    as [Hstart Hend].
  { destruct (timestamps a) as [|t ts] eqn:Ea.
    - apply Permutation_nil in Hperm.
      unfold summarize. rewrite Ea, Hperm. simpl. split; reflexivity.
    - assert (timestamps b <> []) as Hne.
      { intros E. rewrite E in Hperm. apply Permutation_sym in Hperm.
        apply Permutation_nil in Hperm. discriminate. }
      destruct (Hina ltac:(discriminate)) as [Hsa Hea].
      destruct (Hinb Hne) as [Hsb Heb].
      pose proof (Permutation_in _ Hperm Hsa) as Hsa'.
      pose proof (Permutation_in _ Hperm Hea) as Hea'.
      pose proof (Permutation_in _ (Permutation_sym Hperm) Hsb) as Hsb'.
      pose proof (Permutation_in _ (Permutation_sym Hperm) Heb) as Heb'.
      split; apply Qle_antisym.
      + apply (Ha _ Hsb').
      + apply (Hb _ Hsa').
      + apply (Hb _ Hea').
      + apply (Ha _ Heb'). }
  repeat split; try congruence; try assumption.
  assert (duration_hours (summarize p a) ==
          (end_time (summarize p a) - start_time (summarize p a)) / 3600)%Q
    as -> by (rewrite <- Hda; field).
  assert (duration_hours (summarize p b) ==
          (end_time (summarize p b) - start_time (summarize p b)) / 3600)%Q
    as -> by (rewrite <- Hdb; field).
  rewrite Hstart, Hend. reflexivity.
Qed.

(** X6. The session does not depend on the order of the lines: two
    transcripts with the same lines in a different order give the same
    three counters and equal start, end and duration. *)
Theorem X6_order_of_lines_irrelevant
    (off : Z) (p : Path) (l1 l2 : list (option json))
    (Hperm : Permutation l1 l2) :
  let s1 := summarize p (analyze_lines off l1) in
  let s2 := summarize p (analyze_lines off l2) in
  (start_time s1 == start_time s2)%Q /\
  (end_time s1 == end_time s2)%Q /\
  (duration_hours s1 == duration_hours s2)%Q /\
  prompt_count s1 = prompt_count s2 /\
  sonnet_responses s1 = sonnet_responses s2 /\
  opus_responses s1 = opus_responses s2.
Proof.
  cbv zeta. apply summarize_equiv, analyze_lines_perm, Hperm.
Qed.

Lemma X6_order_of_lines_witness :
  Permutation two_lines two_lines_swapped /\
  (duration_hours (summarize path_a (analyze_lines 0 two_lines)) ==
   duration_hours (summarize path_a (analyze_lines 0 two_lines_swapped)))%Q.
Proof.
  assert (Permutation two_lines two_lines_swapped) as H by apply perm_swap.
  split; [exact H|].
  exact (proj1 (proj2 (proj2
           (X6_order_of_lines_irrelevant 0 path_a two_lines two_lines_swapped
              H)))).
Defined.

(** X7. What a line adds to the timestamps depends on its timestamp
    field alone: two object lines with the same timestamp field add the
    same timestamps, whatever their other fields and even when one of
    them makes the classification raise. *)
Theorem X7_timestamp_independent_of_classification
    (off : Z) (a : scan) (fields1 fields2 : list (string * json))
    (Hsame : Py.lookup "timestamp" fields1 = Py.lookup "timestamp" fields2) :
  timestamps (analyze_line off (Some (JObj fields1)) a) =
  timestamps (analyze_line off (Some (JObj fields2)) a).
Proof.
  unfold analyze_line. simpl. rewrite Hsame.
  set (ts := default JNull (Py.lookup "timestamp" fields2)).
  destruct (classify (JObj fields1)) as [b1|];
    destruct (classify (JObj fields2)) as [b2|];
    rewrite ?apply_bump_timestamps; reflexivity.
Qed.

Lemma X7_timestamp_independent_witness :
  Py.lookup "timestamp" dated_assistant = Py.lookup "timestamp" dated_broken /\
  classify (JObj dated_broken) = Raised /\
  timestamps (analyze_line 0 (Some (JObj dated_assistant)) scan0) =
  timestamps (analyze_line 0 (Some (JObj dated_broken)) scan0).
Proof.
  split; [reflexivity|]. split; [reflexivity|].
  exact (X7_timestamp_independent_of_classification 0 scan0 dated_assistant
           dated_broken eq_refl).
Defined.

(** ** The cache *)

(** X8. An analysis changes the cache in one place only: afterwards
    the cache is the old cache with the returned session stored under
    the analysed path, so the entries of all other paths are untouched
    and the path maps to what was returned; the week start, the cycle
    start and the time-to-live are never changed. The time of the last
    cache update, which every computed analysis sets, is not part of
    this statement. *)
Theorem X8_analysis_stores_its_result
    (off : Z) (now_check now_store : Q) (file : file_read) (p : Path)
    (self : UsageTracker) :
  let r := _analyze_jsonl_file off now_check now_store file p self in
  _cache (snd r) = <[path_str p := fst r]> (_cache self) /\
  _cache (snd r) !! path_str p = Some (fst r) /\
  week_start (snd r) = week_start self /\
  cycle_5h_start (snd r) = cycle_5h_start self /\
  cache_duration (snd r) = cache_duration self.
Proof.
  cbv zeta. unfold _analyze_jsonl_file.
  destruct (_cache self !! path_str p) as [cached|] eqn:Hin.
  - destruct (Qltb (now_check - _cache_time self) (cache_duration self));
      simpl.
    + rewrite (insert_id _ _ _ Hin). auto.
    + rewrite lookup_insert_eq. auto.
  - simpl. rewrite lookup_insert_eq. auto.
Qed.

(** X9. After an analysis that was computed, a second analysis of the
    same path less than the time-to-live later returns the same session
    and leaves the tracker as it is, whatever the file holds by then: the
    file is not read. *)
Theorem X9_repeated_analysis_served_from_cache
    (off : Z) (t1 t1' t2 t2' : Q) (file file' : file_read) (p : Path)
    (self : UsageTracker)
    (Hcomputed : computed self t1 p)
    (Hclock : (t1 <= t1')%Q)
    (Hfresh : (t2 - t1 < cache_duration self)%Q) :
  let first := _analyze_jsonl_file off t1 t1' file p self in
  _analyze_jsonl_file off t2 t2' file' p (snd first) = first /\
  fst first = summarize p (analyze_lines off (lines_read file)).
Proof.
  cbv zeta. split.
  - apply second_analysis_from_cache; assumption.
  - apply analyze_computed. exact Hcomputed.
Qed.

Lemma X9_repeated_analysis_witness :
  computed tracker0 100 path_a /\ (100 <= 100)%Q /\
  (103 - 100 < cache_duration tracker0)%Q /\
  _analyze_jsonl_file 0 103 103 file_a2 path_a (snd run_a1) = run_a1.
Proof.
  assert (computed tracker0 100 path_a) as H1 by (left; reflexivity).
  assert (100 <= 100)%Q as H2 by (unfold Qle; simpl; lia).
  assert (103 - 100 < cache_duration tracker0)%Q as H3
    by (unfold Qlt; simpl; lia).
  split; [exact H1|]. split; [exact H2|]. split; [exact H3|].
  exact (proj1 (X9_repeated_analysis_served_from_cache 0 100 100 103 103
                  file_a1 file_a2 path_a tracker0 H1 H2 H3)).
Defined.

(** ** The sessions the aggregator returns *)

Lemma summarize_consistent (p : Path) (a : scan) : consistent (summarize p a).
Proof.
  destruct (summarize_bounds p a) as (H1 & _ & H3 & _). split; assumption.
Qed.

Lemma analyze_keeps_consistent (off : Z) (now_check now_store : Q)
    (file : file_read) (p : Path) (self : UsageTracker) :
  cache_consistent self ->
  let r := _analyze_jsonl_file off now_check now_store file p self in
  consistent (fst r) /\ cache_consistent (snd r).
Proof.
  intros Hc. cbv zeta. unfold _analyze_jsonl_file.
  destruct (_cache self !! path_str p) as [cached|] eqn:Hin.
  - destruct (Qltb (now_check - _cache_time self) (cache_duration self));
      simpl.
    + split; [exact (Hc _ _ Hin) | exact Hc].
    + split; [apply summarize_consistent|].
      unfold cache_consistent. simpl.
      apply map_Forall_insert_2; [apply summarize_consistent | exact Hc].
  - simpl. split; [apply summarize_consistent|].
    unfold cache_consistent. simpl.
    apply map_Forall_insert_2; [apply summarize_consistent | exact Hc].
Qed.

Lemma visit_file_ok (off : Z) (st : list SessionData * UsageTracker)
    (v : visit) :
  sessions_ok st -> sessions_ok (visit_file off st v).
Proof.
  intros [Hl Hc]. unfold visit_file.
  pose proof (analyze_keeps_consistent off (v_now_check v) (v_now_store v)
                (v_file v) (v_path v) (snd st) Hc) as [Hs Hc'].
  cbv zeta in Hs, Hc'.
  destruct (_analyze_jsonl_file off (v_now_check v) (v_now_store v)
              (v_file v) (v_path v) (snd st)) as [session self'].
  simpl in *.
  destruct (Qltb 0 (duration_hours session)) eqn:E; split; simpl;
    try assumption.
  apply Forall_app. split; [exact Hl|].
  repeat constructor; [apply Hs | apply Hs | apply Qltb_lt, E].
Qed.

Lemma visit_files_ok (off : Z) (vs : list visit) :
  forall st, sessions_ok st -> sessions_ok (fold_left (visit_file off) vs st).
Proof.
  induction vs as [|v vs IH]; intros st H; simpl; [exact H|].
  apply IH, visit_file_ok, H.
Qed.

Lemma visit_projects_ok (off : Z) (ps : list project_entry) :
  forall st,
    sessions_ok st -> sessions_ok (fold_left (visit_project off) ps st).
Proof.
  induction ps as [|p ps IH]; intros st H; simpl; [exact H|].
  apply IH. unfold visit_project.
  destruct (is_dir p); [apply visit_files_ok|]; exact H.
Qed.

(** X10. Starting from a tracker whose cached sessions are consistent,
    as they are when the cache is empty, every session the aggregator
    returns starts strictly before it ends, has a positive duration equal
    to the difference in hours, and the cache stays consistent. *)
Theorem X10_returned_sessions_are_real
    (off : Z) (projects : option (list project_entry)) (self : UsageTracker)
    (Hcache : cache_consistent self) :
  let r := get_all_sessions off projects self in
  List.Forall
    (fun s => (start_time s < end_time s)%Q /\ (0 < duration_hours s)%Q /\
              (duration_hours s * 3600 == end_time s - start_time s)%Q)
    (fst r) /\
  cache_consistent (snd r).
Proof.
  cbv zeta.
  assert (sessions_ok (get_all_sessions off projects self)) as [Hl Hc].
  { unfold get_all_sessions. destruct projects as [ps|].
    - apply visit_projects_ok. split; [constructor | exact Hcache].
    - split; [constructor | exact Hcache]. }
  split; [|exact Hc].
  rewrite List.Forall_forall in *. intros s Hs.
  destruct (Hl s Hs) as [[Hle Hd] Hpos].
  repeat split; try assumption. lra.
Qed.

Lemma X10_returned_sessions_witness :
  cache_consistent tracker0 /\
  cache_consistent (snd (get_all_sessions 0 None tracker0)).
Proof.
  assert (cache_consistent tracker0) as H by apply map_Forall_empty.
  split; [exact H|].
  exact (proj2 (X10_returned_sessions_are_real 0 None tracker0 H)).
Defined.

Lemma visit_files_length (off : Z) (vs : list visit) : forall st,
  (List.length (fst (fold_left (visit_file off) vs st))
   <= List.length (fst st) + List.length vs)%nat.
Proof.
  induction vs as [|v vs IH]; intros st; simpl; [lia|].
  specialize (IH (visit_file off st v)).
  assert (List.length (fst (visit_file off st v))
          <= S (List.length (fst st)))%nat as H.
  { unfold visit_file.
    destruct (_analyze_jsonl_file off (v_now_check v) (v_now_store v)
                (v_file v) (v_path v) (snd st)) as [session self'].
    destruct (Qltb 0 (duration_hours session)); simpl;
      rewrite ?length_app; simpl; lia. }
  lia.
Qed.

Lemma count_files_from (ps : list project_entry) : forall n : nat,
  fold_left
    (fun n p => if is_dir p then (n + List.length (jsonl_files p))%nat else n)
    ps n = (n + count_files ps)%nat.
Proof.
  unfold count_files. induction ps as [|p ps IH]; intros n; simpl; [lia|].
  rewrite IH, (IH (if is_dir p then _ else _)).
  destruct (is_dir p); lia.
Qed.

Lemma visit_projects_length (off : Z) (ps : list project_entry) : forall st,
  (List.length (fst (fold_left (visit_project off) ps st))
   <= List.length (fst st) + count_files ps)%nat.
Proof.
  induction ps as [|p ps IH]; intros st; simpl.
  - unfold count_files. simpl. lia.
  - specialize (IH (visit_project off st p)).
    unfold count_files in *. simpl.
    rewrite (count_files_from ps). unfold count_files.
    unfold visit_project in *. destruct (is_dir p).
    + pose proof (visit_files_length off (jsonl_files p) st). simpl. lia.
    + simpl. lia.
Qed.

Lemma visit_projects_dirs (off : Z) (ps : list project_entry) : forall st,
  fold_left (visit_project off) ps st =
  fold_left (visit_project off) (List.filter is_dir ps) st.
Proof.
  induction ps as [|p ps IH]; intros st; simpl; [reflexivity|].
  destruct (is_dir p) eqn:E; simpl.
  - apply IH.
  - rewrite <- IH. unfold visit_project at 2. rewrite E. reflexivity.
Qed.

(** X11. Entries of the storage root that are not directories are never
    looked into: the aggregator returns the same sessions and the same
    tracker as on the listing with these entries removed; it returns at
    most one session per transcript of the directories, and nothing,
    with the tracker unchanged, when the storage root does not exist. *)
Theorem X11_only_directories_are_scanned
    (off : Z) (ps : list project_entry) (self : UsageTracker) :
  get_all_sessions off (Some ps) self =
    get_all_sessions off (Some (List.filter is_dir ps)) self /\
  (List.length (fst (get_all_sessions off (Some ps) self))
   <= count_files ps)%nat /\
  get_all_sessions off None self = ([], self).
Proof.
  split; [|split].
  - simpl. apply visit_projects_dirs.
  - simpl. pose proof (visit_projects_length off ps ([], self)) as H.
    simpl in H. exact H.
  - reflexivity.
Qed.

(** ** Prompt counts and hours of the windows *)

Lemma sum_prompts_from (l : list SessionData) : forall n : nat,
  fold_left (fun n s => n + prompt_count s)%nat l n = (n + sum_prompts l)%nat.
Proof.
  unfold sum_prompts. induction l as [|s l IH]; intros n; simpl; [lia|].
  rewrite IH, (IH (prompt_count s)). lia.
Qed.

Lemma sum_prompts_cons (s : SessionData) (l : list SessionData) :
  sum_prompts (s :: l) = (prompt_count s + sum_prompts l)%nat.
Proof. unfold sum_prompts at 1. simpl. apply sum_prompts_from. Qed.

Lemma sum_prompts_filter_le (f g : SessionData -> bool) (l : list SessionData) :
  (forall s, f s = true -> g s = true) ->
  (sum_prompts (List.filter f l) <= sum_prompts (List.filter g l))%nat.
Proof.
  intros Hfg. induction l as [|s l IH]; simpl; [lia|].
  destruct (f s) eqn:Ef.
  - rewrite (Hfg s Ef), !sum_prompts_cons. lia.
  - destruct (g s); rewrite ?sum_prompts_cons; lia.
Qed.

(** X12. When the week started no later than the current cycle, the
    sessions of the cycle are among the sessions of the week and the
    5-hour prompt count does not exceed the weekly prompt count. *)
Theorem X12_cycle_prompts_within_week
    (py_round : nat -> Q -> Q) (self : UsageTracker)
    (all : list SessionData) (context_data : option ContextData) (now : Q)
    (Hweek : (week_start self <= cycle_5h_start self)%Q) :
  let u := usage_of py_round self all context_data now in
  (current_5h_prompts u <= weekly_prompts u)%nat /\
  (forall s, In s (cycle_filter self all) -> In s (sessions u)).
Proof.
  cbv zeta. simpl.
  assert (forall s, Qle_bool (cycle_5h_start self) (start_time s) = true ->
                    Qle_bool (week_start self) (start_time s) = true) as Hfg.
  { intros s H. apply Qle_bool_iff in H. apply Qle_bool_iff.
    exact (Qle_trans _ _ _ Hweek H). }
  split.
  - apply sum_prompts_filter_le. exact Hfg.
  - intros s. unfold cycle_filter, week_filter.
    rewrite !List.filter_In. intros [Hin H]. split; [exact Hin | auto].
Qed.

Lemma X12_cycle_prompts_witness :
  (week_start tracker_mid_week <= cycle_5h_start tracker_mid_week)%Q /\
  (current_5h_prompts
     (usage_of (fun _ x => x) tracker_mid_week [mixed_session] None 20000)
   <= weekly_prompts
        (usage_of (fun _ x => x) tracker_mid_week [mixed_session] None 20000)
  )%nat.
Proof.
  assert (week_start tracker_mid_week <= cycle_5h_start tracker_mid_week)%Q
    as H by (unfold Qle; simpl; lia).
  split; [exact H|].
  exact (proj1 (X12_cycle_prompts_within_week (fun _ x => x) tracker_mid_week
                  [mixed_session] None 20000 H)).
Defined.

Lemma total_hours_from (l : list SessionData) : forall h : Q,
  (fold_left (fun h s => h + duration_hours s) l h == h + total_hours l)%Q.
Proof.
  unfold total_hours. induction l as [|s l IH]; intros h; simpl; [ring|].
  rewrite IH, (IH (0 + duration_hours s)%Q). ring.
Qed.

Lemma attributed_from (l : list SessionData) : forall h : Q,
  (fold_left
     (fun h s =>
        if (0 <? sonnet_responses s + opus_responses s)%nat
        then h + duration_hours s else h) l h
   == h + attributed_hours l)%Q.
Proof.
  unfold attributed_hours. induction l as [|s l IH]; intros h; simpl; [ring|].
  rewrite IH,
    (IH (if (0 <? sonnet_responses s + opus_responses s)%nat
         then (0 + duration_hours s)%Q else 0%Q)).
  destruct (0 <? sonnet_responses s + opus_responses s)%nat; ring.
Qed.

Lemma attributed_le_total (l : list SessionData) :
  List.Forall (fun s => (0 <= duration_hours s)%Q) l ->
  (0 <= attributed_hours l)%Q /\ (attributed_hours l <= total_hours l)%Q.
Proof.
  induction 1 as [|s l Hs Hl IH].
  - unfold attributed_hours, total_hours. simpl. split; apply Qle_refl.
  - unfold attributed_hours, total_hours. simpl.
    rewrite attributed_from, total_hours_from. destruct IH as [I0 I1].
    destruct (0 <? sonnet_responses s + opus_responses s)%nat; split; lra.
Qed.

Lemma Qnat_nonneg (n : nat) : (0 <= Qnat n)%Q.
Proof.
  unfold Qnat. change 0%Q with (inject_Z 0). rewrite <- Zle_Qle. lia.
Qed.

Lemma add_hours_grows (acc : Q * Q) (s : SessionData) :
  (0 <= duration_hours s)%Q ->
  (fst acc <= fst (add_hours acc s))%Q /\ (snd acc <= snd (add_hours acc s))%Q.
Proof.
  intros Hd. unfold add_hours.
  destruct (Nat.ltb_spec 0 (sonnet_responses s + opus_responses s))
    as [Hpos|_]; simpl; [|split; apply Qle_refl].
  assert (forall n, 0 <= duration_hours s *
                         (Qnat n / Qnat (sonnet_responses s + opus_responses s))
         )%Q as Hnn.
  { intros n. apply Qmult_le_0_compat; [exact Hd|].
    unfold Qdiv. apply Qmult_le_0_compat; [apply Qnat_nonneg|].
    apply Qinv_le_0_compat, Qnat_nonneg. }
  pose proof (Hnn (sonnet_responses s)). pose proof (Hnn (opus_responses s)).
  split; lra.
Qed.

Lemma weekly_hours_nonneg_from (l : list SessionData) :
  List.Forall (fun s => (0 <= duration_hours s)%Q) l ->
  forall acc : Q * Q,
    (fst acc <= fst (fold_left add_hours l acc))%Q /\
    (snd acc <= snd (fold_left add_hours l acc))%Q.
Proof.
  induction 1 as [|s l Hs Hl IH]; intros acc; simpl.
  - split; apply Qle_refl.
  - destruct (IH (add_hours acc s)) as [I1 I2].
    destruct (add_hours_grows acc s Hs) as [G1 G2]. split; lra.
Qed.

(** X13. The weekly hours of the two model families, before rounding,
    are never negative and together never exceed the total duration of
    the week's sessions; sessions without an attributed response add to
    neither. *)
Theorem X13_weekly_hours_bounded
    (self : UsageTracker) (analysed : list SessionData) :
  let week_sessions := week_filter self (real_sessions analysed) in
  let hours := weekly_hours week_sessions in
  (0 <= fst hours)%Q /\ (0 <= snd hours)%Q /\
  (fst hours + snd hours == attributed_hours week_sessions)%Q /\
  (fst hours + snd hours <= total_hours week_sessions)%Q.
Proof.
  cbv zeta.
  assert (List.Forall (fun s => (0 <= duration_hours s)%Q)
            (week_filter self (real_sessions analysed))) as Hnn.
  { rewrite List.Forall_forall. intros s Hs.
    unfold week_filter in Hs. apply List.filter_In in Hs as [Hs _].
    apply Qlt_le_weak, (real_sessions_positive analysed s Hs). }
  destruct (weekly_hours_nonneg_from _ Hnn (0%Q, 0%Q)) as [H1 H2].
  destruct (attributed_le_total _ Hnn) as [_ H4].
  pose proof (weekly_hours_total_from
                (week_filter self (real_sessions analysed)) (0%Q, 0%Q) 0%Q
                ltac:(reflexivity)) as H3.
  fold (weekly_hours (week_filter self (real_sessions analysed))) in *.
  fold (attributed_hours (week_filter self (real_sessions analysed))) in H3.
  simpl in H1, H2. repeat split; try assumption. rewrite H3. exact H4.
Qed.

Lemma analysis_frame (off : Z) (now_check now_store : Q) (file : file_read)
    (p : Path) (self : UsageTracker) :
  let r := _analyze_jsonl_file off now_check now_store file p self in
  week_start (snd r) = week_start self /\
  cycle_5h_start (snd r) = cycle_5h_start self.
Proof.
  cbv zeta. unfold _analyze_jsonl_file.
  destruct (_cache self !! path_str p) as [cached|];
    [destruct (Qltb (now_check - _cache_time self) (cache_duration self))|];
    simpl; auto.
Qed.

Lemma scan_keeps_boundaries (off : Z)
    (projects : option (list project_entry)) (self : UsageTracker) :
  week_start (snd (get_all_sessions off projects self)) = week_start self /\
  cycle_5h_start (snd (get_all_sessions off projects self))
  = cycle_5h_start self.
Proof.
  unfold get_all_sessions. destruct projects as [ps|]; [|auto].
  assert (forall vs st,
            week_start (snd (fold_left (visit_file off) vs st))
            = week_start (snd st) /\
            cycle_5h_start (snd (fold_left (visit_file off) vs st))
            = cycle_5h_start (snd st)) as Hfiles.
  { induction vs as [|v vs IH]; intros st; simpl; [auto|].
    destruct (IH (visit_file off st v)) as [-> ->].
    unfold visit_file.
    pose proof (analysis_frame off (v_now_check v) (v_now_store v) (v_file v)
                  (v_path v) (snd st)) as (Hfw & Hfc).
    destruct (_analyze_jsonl_file off (v_now_check v) (v_now_store v)
                (v_file v) (v_path v) (snd st)) as [session self'].
    simpl in *. destruct (Qltb 0 (duration_hours session)); simpl; auto. }
  assert (forall qs st,
            week_start (snd (fold_left (visit_project off) qs st))
            = week_start (snd st) /\
            cycle_5h_start (snd (fold_left (visit_project off) qs st))
            = cycle_5h_start (snd st)) as Hprojects.
  { induction qs as [|p qs IH]; intros st; simpl; [auto|].
    destruct (IH (visit_project off st p)) as [-> ->].
    unfold visit_project. destruct (is_dir p); [apply Hfiles | auto]. }
  apply (Hprojects ps ([], self)).
Qed.

(** X14. What [calculate_usage] does on a storage root whose listing may
    raise. When it returns, no file-system call of the listing raised and
    the context is what [estimate_context_usage] returned; the session
    list holds only sessions that started in the week and have a positive
    duration, never more than were analysed; the weekly prompt count is
    the sum over exactly this list; and the two boundaries reported are
    those of the tracker. When it raises, the listing raised (and the
    estimator was not reached) or the estimator raised. Either way the
    tracker keeps its boundaries. *)
Theorem X14_usage_sessions
    (off : Z) (py_round : nat -> Q -> Q) (l : listing)
    (context_result : result (option ContextData)) (now : Q)
    (self : UsageTracker) :
  let r := calculate_usage_scan off py_round l context_result now self in
  week_start (snd r) = week_start self /\
  cycle_5h_start (snd r) = cycle_5h_start self /\
  match fst r with
  | Ok u =>
      listing_failed l = false /\
      context_result = Ok (context u) /\
      List.Forall
        (fun s => (week_start self <= start_time s)%Q /\
                  (0 < duration_hours s)%Q) (sessions u) /\
      weekly_prompts u = sum_prompts (sessions u) /\
      (List.length (sessions u)
       <= List.length (analysed_sessions off (listed l) self))%nat /\
      weekly_start u = week_start self /\
      current_5h_start u = cycle_5h_start self
  | Raised =>
      listing_failed l = true \/
      (listing_failed l = false /\ context_result = Raised)
  end.
Proof.
  cbv zeta. unfold calculate_usage_scan, get_all_sessions_scan.
  pose proof (get_all_sessions_real off (listed l) self) as Hall.
  destruct (scan_keeps_boundaries off (listed l) self) as [Hw Hc].
  destruct (get_all_sessions off (listed l) self) as [all self'].
  simpl in Hall, Hw, Hc. subst all. simpl.
  split; [exact Hw|]. split; [exact Hc|].
  destruct (listing_failed l); simpl; [left; reflexivity|].
  destruct context_result as [context_data|]; simpl; [|right; auto].
  rewrite Hw, Hc. repeat split.
  - rewrite List.Forall_forall. intros s Hs.
    unfold week_filter in Hs. apply List.filter_In in Hs as [Hs Hws].
    rewrite Hw in Hws. split; [apply Qle_bool_iff; exact Hws|].
    exact (real_sessions_positive _ s Hs).
  - unfold week_filter, real_sessions.
    etransitivity; [apply List.filter_length_le|].
    apply List.filter_length_le.
Qed.

(** ** More on the window boundaries *)

Lemma cycle_index_nonneg (now : Q) :
  (0 <= now)%Q -> (0 <= now / 3600 / 5)%Q.
Proof.
  intros H. unfold Qdiv.
  apply Qmult_le_0_compat; [apply Qmult_le_0_compat|];
    [exact H | unfold Qle; simpl; lia | unfold Qle; simpl; lia].
Qed.

Lemma cycle_index_of_multiple (k : Z) :
  Qfloor (inject_Z (k * 5 * 3600) / 3600 / 5) = k.
Proof.
  rewrite <- (Qfloor_Z k) at 2. apply Qfloor_comp.
  rewrite !inject_Z_mult. change (inject_Z 5) with 5%Q.
  change (inject_Z 3600) with 3600%Q. field.
Qed.

(** X15. From the epoch on, the cycle start of a cycle start is itself,
    a later time never has an earlier cycle start, and every time inside
    the five hours of a cycle has that cycle's start. *)
Theorem X15_cycle_start_stable (now later : Q)
    (Hnow : (0 <= now)%Q) (Hlater : (now <= later)%Q) :
  _get_5h_cycle_start (_get_5h_cycle_start now) = _get_5h_cycle_start now /\
  (_get_5h_cycle_start now <= _get_5h_cycle_start later)%Q /\
  ((later < _get_5h_cycle_start now + 5 * 3600)%Q ->
   _get_5h_cycle_start later = _get_5h_cycle_start now).
Proof.
  assert (0 <= later)%Q as Hl0 by lra.
  rewrite (cycle_start_floor now Hnow), (cycle_start_floor later Hl0).
  set (k := Qfloor (now / 3600 / 5)).
  assert (0 <= k)%Z as Hk.
  { unfold k. rewrite <- (Qfloor_Z 0).
    apply Qfloor_resp_le, cycle_index_nonneg, Hnow. }
  assert (k <= Qfloor (later / 3600 / 5))%Z as Hmono.
  { unfold k. apply Qfloor_resp_le. unfold Qdiv.
    repeat apply Qmult_le_compat_r; try (unfold Qle; simpl; lia).
    exact Hlater. }
  split; [|split].
  - rewrite cycle_start_floor.
    + rewrite cycle_index_of_multiple. reflexivity.
    + change 0%Q with (inject_Z 0). rewrite <- Zle_Qle. lia.
  - rewrite <- Zle_Qle. lia.
  - intros Hin. f_equal. f_equal. f_equal.
    apply Z.le_antisymm; [|exact Hmono].
    assert (Qfloor (later / 3600 / 5) < k + 1)%Z; [|lia].
    rewrite Zlt_Qlt.
    apply (Qle_lt_trans _ (later / 3600 / 5)); [apply Qfloor_le|].
    rewrite !inject_Z_mult in Hin. rewrite inject_Z_plus.
    change (inject_Z 5) with 5%Q in Hin.
    change (inject_Z 3600) with 3600%Q in Hin.
    change (inject_Z 1) with 1%Q.
    apply Qlt_shift_div_r; [unfold Qlt; simpl; lia|].
    apply Qlt_shift_div_r; [unfold Qlt; simpl; lia|]. lra.
Qed.

Lemma X15_cycle_start_witness :
  (0 <= 1704250000)%Q /\ (1704250000 <= 1704250100)%Q /\
  _get_5h_cycle_start (_get_5h_cycle_start 1704250000)
  = _get_5h_cycle_start 1704250000.
Proof.
  assert (0 <= 1704250000)%Q as H0 by (unfold Qle; simpl; lia).
  assert (1704250000 <= 1704250100)%Q as H1 by (unfold Qle; simpl; lia).
  split; [exact H0|]. split; [exact H1|].
  exact (proj1 (X15_cycle_start_stable 1704250000 1704250100 H0 H1)).
Defined.

(** X16. For a clock reading before the epoch [int()] rounds toward
    zero, so the cycle start is the multiple of five hours at or after
    the reading and less than five hours later; unless the reading is
    itself such a multiple, this is not the latest one at or before
    it. *)
Theorem X16_cycle_start_before_epoch (now : Q) (Hneg : (now < 0)%Q) :
  (now <= _get_5h_cycle_start now)%Q /\
  (_get_5h_cycle_start now < now + 5 * 3600)%Q /\
  exists k : Z, _get_5h_cycle_start now = inject_Z (k * 5 * 3600).
Proof.
  unfold _get_5h_cycle_start, py_int.
  set (x := (now / 3600 / 5)%Q).
  assert (now == x * 18000)%Q as Hx by (unfold x; field).
  assert (x < 0)%Q as Hxneg by lra.
  destruct (Qle_bool 0 x) eqn:E.
  { apply Qle_bool_iff in E. lra. }
  pose proof (Qle_ceiling x) as Hc. pose proof (Qceiling_lt x) as Hc'.
  rewrite inject_Z_sub in Hc'. change (inject_Z 1) with 1%Q in Hc'.
  rewrite !inject_Z_mult.
  change (inject_Z 5) with 5%Q. change (inject_Z 3600) with 3600%Q.
  split; [lra|]. split; [lra|].
  exists (Qceiling x). rewrite !inject_Z_mult. reflexivity.
Qed.

Lemma X16_cycle_start_before_epoch_witness :
  (-1 < 0)%Q /\ (-1 <= _get_5h_cycle_start (-1))%Q /\
  _get_5h_cycle_start (-1) = 0%Q.
Proof.
  assert (-1 < 0)%Q as H by (unfold Qlt; simpl; lia).
  split; [exact H|].
  split; [exact (proj1 (X16_cycle_start_before_epoch (-1) H)) | reflexivity].
Defined.

Lemma weekday_shift (d k : Z) :
  (0 <= (d + 3) mod 7 + k < 7)%Z ->
  ((d + k + 3) mod 7 = (d + 3) mod 7 + k)%Z.
Proof.
  intros H. pose proof (Z_div_mod_eq_full (d + 3) 7) as E.
  symmetry. apply (Z.mod_unique_pos _ _ ((d + 3) / 7)); lia.
Qed.

(** X17. The week start depends on the day alone, not on the time of
    day; all days of one Monday-to-Sunday week have the same week start;
    and seven days later the week start is 604800 seconds later. *)
Theorem X17_week_start_stable
    (off : Z) (now : local_datetime) (k : Z) (time_of_day : Q)
    (Hweek : (0 <= weekday now + k < 7)%Z) :
  _get_week_start off
    {| day_number := day_number now + k; seconds_of_day := time_of_day |}
  = _get_week_start off now /\
  (_get_week_start off
     {| day_number := day_number now + 7; seconds_of_day := time_of_day |}
   == _get_week_start off now + 604800)%Q.
Proof.
  unfold _get_week_start, local_timestamp, at_midnight, minus_days, weekday
    in *. simpl. split.
  - rewrite (weekday_shift _ _ Hweek). do 2 f_equal. lia.
  - replace ((day_number now + 7 + 3) mod 7)%Z
      with ((day_number now + 3) mod 7)%Z.
    + rewrite !inject_Z_sub, !inject_Z_mult, !inject_Z_sub, inject_Z_plus.
      change (inject_Z 7) with 7%Q. change (inject_Z 86400) with 86400%Q.
      ring.
    + replace (day_number now + 7 + 3)%Z with (day_number now + 3 + 1 * 7)%Z
        by lia.
      rewrite Z_mod_plus_full. reflexivity.
Qed.

Lemma X17_week_start_witness :
  (0 <= weekday sample_local_now + 4 < 7)%Z /\
  _get_week_start 3600 {| day_number := 19725 + 4; seconds_of_day := 5 |}
  = _get_week_start 3600 sample_local_now.
Proof.
  assert (0 <= weekday sample_local_now + 4 < 7)%Z as H
    by (vm_compute; split; [discriminate | reflexivity]).
  split; [exact H|].
  exact (proj1 (X17_week_start_stable 3600 sample_local_now 4 5 H)).
Defined.

(** ** Token estimates *)

Lemma string_length_app (a b : string) :
  String.length (a ++ b) = (String.length a + String.length b)%nat.
Proof.
  induction a as [|c a IH]; [reflexivity|].
  rewrite app_cons. simpl. rewrite IH. reflexivity.
Qed.

Lemma estimate_tokens_div (text : string) :
  _estimate_tokens text = (Z.of_nat (String.length text) / 4)%Z.
Proof.
  unfold _estimate_tokens. destruct text; reflexivity.
Qed.

(** X18. [_estimate_tokens] rounds the quarter of the length down: four
    times the estimate is at most the length and misses it by less than
    four; the estimate of a concatenation is the sum of the estimates or
    one more, never less. *)
Theorem X18_estimate_tokens_bounds (a b : string) :
  (4 * _estimate_tokens a <= Z.of_nat (String.length a)
   < 4 * _estimate_tokens a + 4)%Z /\
  (_estimate_tokens a + _estimate_tokens b <= _estimate_tokens (a ++ b)
   <= _estimate_tokens a + _estimate_tokens b + 1)%Z.
Proof.
  rewrite !estimate_tokens_div, string_length_app, Nat2Z.inj_add.
  set (x := Z.of_nat (String.length a)). set (y := Z.of_nat (String.length b)).
  pose proof (Z_div_mod_eq_full x 4). pose proof (Z.mod_pos_bound x 4).
  pose proof (Z_div_mod_eq_full y 4). pose proof (Z.mod_pos_bound y 4).
  pose proof (Z_div_mod_eq_full (x + y) 4).
  pose proof (Z.mod_pos_bound (x + y) 4).
  lia.
Qed.

Lemma add_len_shift (v : json) (total : nat) :
  add_len v total = ((total + fst (add_len v 0))%nat, snd (add_len v 0)).
Proof. unfold add_len. destruct (py_len v); simpl; f_equal; lia. Qed.

Lemma count_blocks_shift (cbs : list json) : forall total : nat,
  count_blocks cbs total =
  ((total + fst (count_blocks cbs 0))%nat, snd (count_blocks cbs 0)).
Proof.
  induction cbs as [|cb cbs IH]; intros total; simpl.
  - f_equal. lia.
  - destruct (Py.is_dict cb && Py.truthy (field cb "text" JNull)); [|apply IH].
    rewrite (add_len_shift _ total). unfold and_then. simpl.
    destruct (add_len (field cb "text" JNull) 0) as [n raised]. simpl.
    destruct raised; simpl.
    + f_equal.
    + rewrite IH, (IH n). simpl. f_equal. lia.
Qed.

Section CountFacts.

Variable dumps_len : json -> nat.

Lemma count_item_shift (item : json) (total : nat) :
  count_item dumps_len item total =
  ((total + fst (count_item dumps_len item 0))%nat,
   snd (count_item dumps_len item 0)).
Proof.
  unfold count_item. destruct (Py.is_dict item); [|simpl; f_equal; lia].
  set (text := field item "text" (JStr "")).
  set (inp := field item "input" JNull).
  set (cbs := field item "content" JNull).
  set (r0 := if Py.truthy text then add_len text 0 else (0%nat, false)).
  assert ((if Py.truthy text then add_len text total else (total, false)) =
          ((total + fst r0)%nat, snd r0)) as ->.
  { unfold r0. destruct (Py.truthy text);
      [apply add_len_shift | simpl; f_equal; lia]. }
  clearbody r0. destruct r0 as [n raised].
  unfold and_then. simpl. destruct raised; [reflexivity|].
  destruct (Py.truthy inp), (Py.truthy cbs); simpl;
    try (f_equal; lia);
    destruct cbs; simpl; try (f_equal; lia);
    rewrite count_blocks_shift; symmetry; rewrite count_blocks_shift;
    simpl; f_equal; lia.
Qed.

Lemma count_items_shift (items : list json) : forall total : nat,
  count_items dumps_len items total =
  ((total + fst (count_items dumps_len items 0))%nat,
   snd (count_items dumps_len items 0)).
Proof.
  induction items as [|item items IH]; intros total; simpl.
  - f_equal. lia.
  - rewrite (count_item_shift item total). unfold and_then. simpl.
    destruct (count_item dumps_len item 0) as [n raised]. simpl.
    destruct raised; simpl; [reflexivity|].
    rewrite IH, (IH n). simpl. f_equal. lia.
Qed.

Lemma count_line_shift (line : option json) (total : nat) :
  count_line dumps_len line total =
  (total + count_line dumps_len line 0)%nat.
Proof.
  unfold count_line. destruct line as [msg|]; [|lia].
  destruct (Py.get msg "type") as [ty|]; [|lia].
  destruct (negb (Py.eq_str ty "user" || Py.eq_str ty "assistant")); [lia|].
  destruct (let* m := Py.get_or msg "message" (JObj []) in
            Py.get_or m "content" (JStr "")) as [[| | |s|items|fields]|];
    try lia.
  rewrite count_items_shift. reflexivity.
Qed.

Lemma total_chars_from (lines : list (option json)) : forall total : nat,
  fold_left (fun total line => count_line dumps_len line total) lines total =
  (total + total_content_chars dumps_len lines)%nat.
Proof.
  unfold total_content_chars.
  induction lines as [|line lines IH]; intros total; simpl; [lia|].
  rewrite IH, (IH (count_line dumps_len line 0)), (count_line_shift line total).
  lia.
Qed.

Lemma total_chars_app (l1 l2 : list (option json)) :
  total_content_chars dumps_len (l1 ++ l2) =
  (total_content_chars dumps_len l1 + total_content_chars dumps_len l2)%nat.
Proof.
  unfold total_content_chars at 1. rewrite fold_left_app.
  fold (total_content_chars dumps_len l1). apply total_chars_from.
Qed.

Lemma non_message_line (line : option json) :
  is_message_line line = false -> count_line dumps_len line 0 = 0%nat.
Proof.
  unfold count_line, is_message_line.
  destruct line as [[| | | | |fields]|]; try reflexivity.
  simpl. intros ->. reflexivity.
Qed.

(** X19. The extracted characters of a transcript are the sum over its
    parts, so they never decrease when lines are appended; lines that do
    not parse, that are not objects, or whose type is neither "user" nor
    "assistant" add nothing. *)
Theorem X19_content_chars_add_up (l1 l2 : list (option json)) :
  total_content_chars dumps_len (l1 ++ l2) =
    (total_content_chars dumps_len l1 + total_content_chars dumps_len l2)%nat /\
  total_content_chars dumps_len (List.filter is_message_line l1) =
    total_content_chars dumps_len l1.
Proof.
  split; [apply total_chars_app|].
  induction l1 as [|line l1 IH]; [reflexivity|].
    simpl. unfold total_content_chars at 2. simpl.
    rewrite total_chars_from.
    destruct (is_message_line line) eqn:E.
  - unfold total_content_chars at 1. simpl. rewrite total_chars_from, IH.
    reflexivity.
  - rewrite (non_message_line line E). exact IH.
Qed.

End CountFacts.

(** X20. The estimate never decreases while a transcript is only
    appended to: with more lines after the old ones and a file at least
    as large, the estimated tokens are at least what they were. *)
Theorem X20_estimate_grows_with_transcript
    (dumps_len : json -> nat) (py_round : nat -> Q -> Q)
    (file_size file_size' : Z) (lines more : list (option json))
    (Hsize : (file_size <= file_size')%Z) :
  match context_of dumps_len py_round (Ok file_size)
          {| lines_read := lines; read_failed := false |},
        context_of dumps_len py_round (Ok file_size')
          {| lines_read := lines ++ more; read_failed := false |} with
  | Some before, Some after =>
      (estimated_tokens before <= estimated_tokens after)%Z
  | _, _ => False
  end.
Proof.
  unfold context_of. simpl.
  rewrite (total_chars_app dumps_len lines more), Nat2Z.inj_add.
  assert (file_size / 6 <= file_size' / 6)%Z
    by (apply Z.div_le_mono; lia).
  assert (Z.of_nat (total_content_chars dumps_len lines) / 4
          <= (Z.of_nat (total_content_chars dumps_len lines)
              + Z.of_nat (total_content_chars dumps_len more)) / 4)%Z
    by (apply Z.div_le_mono; lia).
  lia.
Qed.

Lemma X20_estimate_grows_witness :
  (600 <= 1200)%Z /\
  match context_of (fun _ => 0%nat) (fun _ x => x) (Ok 600%Z)
          {| lines_read := [Some hello_record]; read_failed := false |},
        context_of (fun _ => 0%nat) (fun _ x => x) (Ok 1200%Z)
          {| lines_read := [Some hello_record] ++ [Some hello_record];
             read_failed := false |} with
  | Some before, Some after =>
      (estimated_tokens before <= estimated_tokens after)%Z
  | _, _ => False
  end.
Proof.
  assert (600 <= 1200)%Z as H by lia.
  split; [exact H|].
  exact (X20_estimate_grows_with_transcript (fun _ => 0%nat) (fun _ x => x)
           600 1200 [Some hello_record] [Some hello_record] H).
Defined.

(** ** Choosing the directory and the transcript *)

Section MaxBy.

Context {A : Type} (key : A -> result Q).

Lemma max_from_spec (l : list A) : forall (best : A) (kbest : Q) (x : A),
  key best = Ok kbest ->
  max_from key best kbest l = Ok x ->
  In x (best :: l) /\
  exists kx, key x = Ok kx /\ (kbest <= kx)%Q /\
             forall y, In y l -> exists ky, key y = Ok ky /\ (ky <= kx)%Q.
Proof.
  induction l as [|y l IH]; intros best kbest x Hbest; simpl.
  - intros H. injection H as <-. split; [auto|].
    exists kbest. split; [exact Hbest|]. split; [apply Qle_refl|].
    intros y [].
  - destruct (key y) as [ky|] eqn:Ey; simpl; [|discriminate].
    destruct (Qltb kbest ky) eqn:E; intros H.
    + apply Qltb_lt in E.
      destruct (IH y ky x Ey H) as (Hin & kx & Hkx & Hle & Hall).
      split; [destruct Hin; auto|].
      exists kx. split; [exact Hkx|]. split; [lra|].
      intros z [<-|Hz]; [exists ky; auto | auto].
    + assert (ky <= kbest)%Q as Hge.
      { unfold Qltb in E. apply negb_false_iff, Qle_bool_iff in E. exact E. }
      destruct (IH best kbest x Hbest H) as (Hin & kx & Hkx & Hle & Hall).
      split; [destruct Hin; auto|].
      exists kx. split; [exact Hkx|]. split; [exact Hle|].
      intros z [<-|Hz]; [exists ky; split; [exact Ey | lra] | auto].
Qed.

Lemma max_from_raises (l : list A) : forall (best : A) (kbest : Q),
  max_from key best kbest l = Raised <-> exists y, In y l /\ key y = Raised.
Proof.
  induction l as [|y l IH]; intros best kbest; simpl.
  - split; [discriminate | intros (y & [] & _)].
  - destruct (key y) as [ky|] eqn:Ey; simpl.
    + destruct (Qltb kbest ky); rewrite IH; split;
        intros (z & Hz & Hr); exists z;
        try (split; [auto | exact Hr]);
        (destruct Hz as [<-|Hz]; [congruence | auto]).
    + split; [intros _; exists y; auto | reflexivity].
Qed.

Lemma max_by_spec (l : list A) :
  match max_by key l with
  | Ok (Some x) =>
      In x l /\
      exists kx, key x = Ok kx /\
                 forall y, In y l -> exists ky, key y = Ok ky /\ (ky <= kx)%Q
  | Ok None => l = []
  | Raised => exists y, In y l /\ key y = Raised
  end.
Proof.
  destruct l as [|x l]; simpl; [reflexivity|].
  destruct (key x) as [kx|] eqn:Ex; simpl; [|exists x; auto].
  destruct (max_from key x kx l) as [m|] eqn:Em; simpl.
  - destruct (max_from_spec l x kx m Ex Em) as (Hin & km & Hkm & Hle & Hall).
    split; [exact Hin|]. exists km. split; [exact Hkm|].
    intros y [<-|Hy]; [exists kx; auto | auto].
  - apply max_from_raises in Em as (y & Hy & Hr). exists y. auto.
Qed.

End MaxBy.

(** X21. The current transcript of a directory is one of its listed
    transcripts and none of them has a later modification time; there is
    none exactly when the listing is empty; and the selection raises
    exactly when the listing raises or the [stat] of a listed transcript
    does. *)
Theorem X21_current_session_is_newest
    (glob_jsonl : string -> result (list string))
    (st_mtime : string -> result Q) (project_dir : string) :
  match current_session glob_jsonl st_mtime project_dir with
  | Ok (Some f) =>
      exists files m,
        glob_jsonl project_dir = Ok files /\ In f files /\
        st_mtime f = Ok m /\
        forall g, In g files -> exists mg, st_mtime g = Ok mg /\ (mg <= m)%Q
  | Ok None => glob_jsonl project_dir = Ok []
  | Raised =>
      glob_jsonl project_dir = Raised \/
      exists files g,
        glob_jsonl project_dir = Ok files /\ In g files /\ st_mtime g = Raised
  end.
Proof.
  unfold current_session.
  destruct (glob_jsonl project_dir) as [files|]; simpl; [|auto].
  pose proof (max_by_spec st_mtime files) as H.
  destruct (max_by st_mtime files) as [[f|]|].
  - destruct H as (Hin & m & Hm & Hall). exists files, m. auto.
  - subst files. reflexivity.
  - destruct H as (g & Hg & Hr). right. exists files, g. auto.
Qed.

Section Resolve.

Variable path_exists : string -> result bool.
Variable iterdir : string -> result (list dir_entry).
Variable path_is_dir : string -> result bool.
Variable glob_jsonl : string -> result (list string).
Variable st_mtime : string -> result Q.
Variable time_at : string -> Q.

Lemma recent_dirs_spec (entries : list dir_entry) :
  forall recent,
    recent_dirs path_is_dir glob_jsonl st_mtime time_at entries = Ok recent ->
    forall p m, In (p, m) recent ->
      exists e, In e entries /\ entry_path e = p /\
                recent_candidate path_is_dir glob_jsonl st_mtime time_at e m.
Proof.
  induction entries as [|e entries IH]; intros recent; simpl.
  - intros H. injection H as <-. intros p m [].
  - destruct (path_is_dir (entry_path e)) as [d|] eqn:Ed; simpl;
      [|discriminate].
    destruct (d && negb (String.prefix "." (entry_name e))) eqn:Egate; simpl.
    + apply andb_true_iff in Egate as [-> Ehid].
      apply negb_true_iff in Ehid.
      destruct (glob_jsonl (entry_path e)) as [files|] eqn:Eg; simpl;
        [|discriminate].
      pose proof (max_by_spec st_mtime files) as Hmax.
      destruct (max_by st_mtime files) as [[f|]|]; simpl; [| |discriminate].
      * destruct Hmax as (Hin & m0 & Hm0 & Hall). rewrite Hm0. simpl.
        destruct (recent_dirs path_is_dir glob_jsonl st_mtime time_at entries)
          as [more|] eqn:Emore; [|destruct (Qltb _ _); discriminate].
        destruct (Qltb (time_at (entry_path e) - m0) 300) eqn:Efresh; simpl;
          intros H; injection H as <-; intros p m Hpm.
        -- destruct Hpm as [Hpm|Hpm].
           ++ injection Hpm as <- <-. exists e. split; [auto|].
              split; [reflexivity|]. unfold recent_candidate.
              repeat split; try assumption; [apply Qltb_lt, Efresh|].
              exists files, f. auto.
           ++ destruct (IH more eq_refl p m Hpm) as (e' & He' & Hrest).
              exists e'. auto.
        -- destruct (IH more eq_refl p m Hpm) as (e' & He' & Hrest).
           exists e'. auto.
      * destruct (recent_dirs path_is_dir glob_jsonl st_mtime time_at entries)
          as [more|] eqn:Emore; [|discriminate].
        simpl. intros H. injection H as <-. intros p m Hpm.
        destruct (IH more eq_refl p m Hpm) as (e' & He' & Hrest).
        exists e'. auto.
    + destruct (recent_dirs path_is_dir glob_jsonl st_mtime time_at entries)
        as [more|] eqn:Emore; [|discriminate].
      simpl. intros H. injection H as <-. intros p m Hpm.
      destruct (IH more eq_refl p m Hpm) as (e' & He' & Hrest).
      exists e'. auto.
Qed.

(** X22. The directory the estimator settles on exists, and it is either
    the directory named after the project path, or, when that one does
    not exist and the storage root does, a listed directory that is not
    hidden and whose newest transcript was modified less than 300
    seconds ago, with no accepted directory holding a newer transcript.
    When the named directory exists it is the result and nothing can
    raise; no directory is found only when the named one does not
    exist. *)
Theorem X22_resolved_directory
    (claude_projects project_path : string) :
  let exact := exact_dir claude_projects project_path in
  match resolve_project_dir path_exists iterdir path_is_dir glob_jsonl
          st_mtime time_at claude_projects project_path with
  | Ok (Some dir) =>
      path_exists dir = Ok true /\
      (dir = exact \/
       (path_exists exact = Ok false /\
        path_exists claude_projects = Ok true /\
        exists entries recent e m,
          iterdir claude_projects = Ok entries /\
          recent_dirs path_is_dir glob_jsonl st_mtime time_at entries
            = Ok recent /\
          In e entries /\ entry_path e = dir /\
          recent_candidate path_is_dir glob_jsonl st_mtime time_at e m /\
          forall p' m', In (p', m') recent -> (m' <= m)%Q))
  | Ok None => path_exists exact = Ok false
  | Raised => path_exists exact <> Ok true
  end.
Proof.
  cbv zeta. unfold resolve_project_dir. fold (exact_dir claude_projects project_path).
  set (exact := exact_dir claude_projects project_path).
  destruct (path_exists exact) as [[|]|] eqn:Eexact; simpl.
  - rewrite Eexact. simpl. auto.
  - destruct (path_exists claude_projects) as [[|]|] eqn:Eroot; simpl.
    + destruct (iterdir claude_projects) as [entries|] eqn:Eiter; simpl;
        [|discriminate].
      destruct (recent_dirs path_is_dir glob_jsonl st_mtime time_at entries)
        as [recent|] eqn:Erecent; simpl; [|discriminate].
      pose proof (max_by_spec (fun x : string * Q => Ok (snd x)) recent)
        as Hmax.
      destruct (max_by (fun x : string * Q => Ok (snd x)) recent)
        as [[[p m]|]|]; simpl.
      * destruct Hmax as (Hin & km & Hkm & Hall). simpl in Hkm.
        injection Hkm as <-.
        destruct (path_exists p) as [[|]|] eqn:Ep; simpl;
          [|reflexivity|discriminate].
        split; [exact Ep|]. right.
        split; [reflexivity|]. split; [reflexivity|].
        destruct (recent_dirs_spec entries recent Erecent p m Hin)
          as (e & He & Hpath & Hcand).
        exists entries, recent, e, m.
        split; [reflexivity|]. split; [exact Erecent|].
        split; [exact He|]. split; [exact Hpath|]. split; [exact Hcand|].
        intros p' m' Hin'. destruct (Hall (p', m') Hin') as (k & Hk & Hle).
        simpl in Hk. injection Hk as <-. exact Hle.
      * rewrite Eexact. reflexivity.
      * destruct Hmax as (y & _ & Hy). discriminate.
    + rewrite Eexact. reflexivity.
    + discriminate.
  - discriminate.
Qed.

End Resolve.

(** ** The directory name of a project *)

Lemma contains_char_cons (c d : ascii) (s : string) :
  Py.contains (String c "") (String d s) =
  Ascii.eqb d c || Py.contains (String c "") s.
Proof.
  rewrite contains_eq.
  change (String.prefix (String c "") (String d s))
    with (if ascii_dec c d then String.prefix "" s else false).
  destruct (ascii_dec c d) as [<-|Hne].
  - rewrite Ascii.eqb_refl. destruct s; reflexivity.
  - destruct (Ascii.eqb_spec d c); [congruence | reflexivity].
Qed.

Lemma replace_char_cons (c : ascii) (by_ : string) (c' : ascii) (s : string) :
  Py.replace_char c by_ (String c' s) =
  if Ascii.eqb c' c then by_ ++ Py.replace_char c by_ s
  else String c' (Py.replace_char c by_ s).
Proof. reflexivity. Qed.

(** X23. The directory name made from a project path has the length of
    the path and no slash in it, and paths without a slash are kept;
    making the name of a name changes nothing. Two paths that differ only
    in a slash against a dash get the same name. *)
Theorem X23_encoded_path (project_path : string) :
  let encoded := Py.replace_char "/" "-" project_path in
  String.length encoded = String.length project_path /\
  Py.contains "/" encoded = false /\
  Py.replace_char "/" "-" encoded = encoded /\
  (Py.contains "/" project_path = false -> encoded = project_path) /\
  Py.replace_char "/" "-" ("/home/u/my-app") =
  Py.replace_char "/" "-" ("/home/u/my/app").
Proof.
  cbv zeta. induction project_path as [|c s IH].
  - repeat split; reflexivity.
  - destruct IH as (Hlen & Hno & Hidem & Hid & _).
    rewrite (replace_char_cons "/" "-" c s).
    destruct (Ascii.eqb_spec c "/") as [->|Hne].
    + rewrite app_cons, app_nil, contains_char_cons,
        (replace_char_cons "/" "-" "-"), Hno, Hidem.
      repeat split; try reflexivity.
      * simpl. rewrite Hlen. reflexivity.
      * rewrite contains_char_cons. discriminate.
    + rewrite contains_char_cons, (replace_char_cons "/" "-" c), Hno, Hidem.
      destruct (Ascii.eqb_spec c "/") as [|_]; [contradiction|].
      repeat split; try reflexivity.
      * simpl. rewrite Hlen. reflexivity.
      * rewrite contains_char_cons. intros H.
        apply orb_false_iff in H as [_ H]. rewrite (Hid H). reflexivity.
Qed.

(** ** What is saved *)

Lemma py_int_whole (z : Z) (q : Q) :
  (q == inject_Z z)%Q -> py_int (q * 1000) = (z * 1000)%Z.
Proof.
  intros H. unfold py_int.
  assert (q * 1000 == inject_Z (z * 1000))%Q as E
    by (rewrite H, inject_Z_mult; reflexivity).
  rewrite (Qfloor_comp _ _ E), (Qceiling_comp _ _ E), Qfloor_Z, Qceiling_Z.
  destruct (Qle_bool 0 (q * 1000)); reflexivity.
Qed.

Lemma saved_fields (py_round : nat -> Q -> Q) (u : UsageData) :
  let data := save_usage_data py_round u in
  saved data "current_5h_cycle" "start_time"
    = Ok (JNum (inject_Z (py_int (current_5h_start u * 1000)))) /\
  saved data "current_week" "start_time"
    = Ok (JNum (inject_Z (py_int (weekly_start u * 1000)))) /\
  saved data "current_week" "total_sessions"
    = Ok (JNum (Qnat (List.length (sessions u)))).
Proof. repeat split; reflexivity. Qed.

(** X24. The week start and the cycle start of a tracker are whole
    seconds, so [save_usage_data] writes them in milliseconds without any
    loss: the saved cycle start is a multiple of 18,000,000 and, read as
    seconds, is the tracker's cycle start; the same holds for the week
    start; and the saved session count is the number of sessions of the
    week. *)
Theorem X24_saved_boundaries_exact
    (off : Z) (py_round : nat -> Q -> Q) (now_local : local_datetime)
    (now : Q) (all : list SessionData) (context_data : option ContextData)
    (updated : Q) (Hnow : (0 <= now)%Q) :
  let self := init off now_local now in
  let data :=
    save_usage_data py_round
      (usage_of py_round self all context_data updated) in
  (exists k : Z,
      saved data "current_5h_cycle" "start_time"
        = Ok (JNum (inject_Z (k * 18000000))) /\
      (inject_Z (k * 18000000) == cycle_5h_start self * 1000)%Q) /\
  (exists w : Z,
      saved data "current_week" "start_time" = Ok (JNum (inject_Z w)) /\
      (inject_Z w == week_start self * 1000)%Q) /\
  saved data "current_week" "total_sessions"
    = Ok (JNum (Qnat (List.length (week_filter self all)))).
Proof.
  cbv zeta.
  destruct (saved_fields py_round
              (usage_of py_round (init off now_local now) all context_data
                 updated)) as (Hcycle & Hweek & Hcount).
  cbv zeta in Hcycle, Hweek, Hcount. rewrite Hcycle, Hweek, Hcount.
  split; [|split].
  - pose proof (cycle_start_floor now Hnow) as Hc.
    set (k := Qfloor (now / 3600 / 5)) in Hc. clearbody k.
    exists k.
    change (current_5h_start
              (usage_of py_round (init off now_local now) all context_data
                 updated))
      with (_get_5h_cycle_start now).
    change (cycle_5h_start (init off now_local now))
      with (_get_5h_cycle_start now).
    rewrite Hc, (py_int_whole (k * 5 * 3600) _ ltac:(reflexivity)).
    replace (k * 5 * 3600 * 1000)%Z with (k * 18000000)%Z by ring.
    split; [reflexivity|].
    rewrite !inject_Z_mult. change (inject_Z 18000000) with 18000000%Q.
    change (inject_Z 5) with 5%Q. change (inject_Z 3600) with 3600%Q. ring.
  - set (z := ((day_number now_local - weekday now_local) * 86400 - off)%Z).
    assert (_get_week_start off now_local == inject_Z z)%Q as Hw.
    { unfold _get_week_start, local_timestamp, at_midnight, minus_days.
      simpl. fold z. ring. }
    change (weekly_start
              (usage_of py_round (init off now_local now) all context_data
                 updated))
      with (_get_week_start off now_local).
    change (week_start (init off now_local now))
      with (_get_week_start off now_local).
    exists (z * 1000)%Z. rewrite (py_int_whole z _ Hw). split; [reflexivity|].
    rewrite Hw, inject_Z_mult. reflexivity.
  - reflexivity.
Qed.

Lemma X24_saved_boundaries_witness :
  (0 <= 1704250000)%Q /\
  saved (save_usage_data (fun _ x => x)
           (usage_of (fun _ x => x) (init 3600 sample_local_now 1704250000)
              [mixed_session] None 1704250001))
    "current_week" "total_sessions" = Ok (JNum (Qnat 0)).
Proof.
  assert (0 <= 1704250000)%Q as H by (unfold Qle; simpl; lia).
  split; [exact H|].
  exact (proj2 (proj2 (X24_saved_boundaries_exact 3600 (fun _ x => x)
                         sample_local_now 1704250000 [mixed_session] None
                         1704250001 H))).
Defined.

(** ** The status line *)

(** X25. The colour of the context part is green below 40 percent,
    yellow from 40 to below 65, orange from 65 to below 80 and red from
    80 on; the warning sign is shown exactly when the colour is orange
    or red. *)
Theorem X25_colour_bands (percentage : Q) :
  (get_context_color percentage = (0, 255, 0)%Z <-> (percentage < 40)%Q) /\
  (get_context_color percentage = (255, 255, 0)%Z <->
   (40 <= percentage)%Q /\ (percentage < 65)%Q) /\
  (get_context_color percentage = (255, 165, 0)%Z <->
   (65 <= percentage)%Q /\ (percentage < 80)%Q) /\
  (get_context_color percentage = (255, 100, 100)%Z <-> (80 <= percentage)%Q) /\
  (shows_warning percentage = true <->
   get_context_color percentage = (255, 165, 0)%Z \/
   get_context_color percentage = (255, 100, 100)%Z).
Proof.
  unfold get_context_color, shows_warning.
  destruct (Qltb percentage 40) eqn:E40;
    [apply Qltb_lt in E40 | apply negb_false_iff, Qle_bool_iff in E40];
  (destruct (Qltb percentage 65) eqn:E65;
    [apply Qltb_lt in E65 | apply negb_false_iff, Qle_bool_iff in E65]);
  (destruct (Qltb percentage 80) eqn:E80;
    [apply Qltb_lt in E80 | apply negb_false_iff, Qle_bool_iff in E80]);
  (destruct (Qle_bool 65 percentage) eqn:E;
    [pose proof (proj1 (Qle_bool_iff _ _) E) as E'
    |assert (percentage < 65)%Q as E'
       by (apply Qnot_le_lt; intros H; apply Qle_bool_iff in H; congruence)]);
  try (exfalso; lra);
  repeat split; intros;
  repeat match goal with
         | H : _ /\ _ |- _ => destruct H
         | H : _ \/ _ |- _ => destruct H
         end;
  try discriminate; try reflexivity; try lra;
  try (left; reflexivity); try (right; reflexivity).
Qed.

(** X26. Whatever the standard input holds, a model label that is
    produced is "Sonnet 4", "Opus 4" or "Opus 4.5"; with the empty data
    that [read_stdin_data] falls back to, nothing raises and the label
    comes from the environment variable, letter case ignored. *)
Theorem X26_model_label (stdin_data : json) (claude_model_env : string) :
  match current_model stdin_data claude_model_env with
  | Ok label => label = "Sonnet 4" \/ label = "Opus 4" \/ label = "Opus 4.5"
  | Raised => stdin_data <> JObj []
  end /\
  current_model (JObj []) claude_model_env =
    Ok (if Py.contains "opus" (Py.lower claude_model_env)
        then "Opus 4" else "Sonnet 4").
Proof.
  split; [|reflexivity].
  unfold current_model.
  destruct (Py.get_or stdin_data "model" (JObj [])) as [model|] eqn:Em; simpl.
  2:{ intros ->. discriminate. }
  destruct (Py.get model "display_name") as [dn|] eqn:Ed; simpl.
  2:{ intros ->. simpl in Em. injection Em as <-. discriminate. }
  destruct (Py.truthy dn) eqn:Et.
  - destruct (Py.get_or model "id" (JStr "")) as [id|] eqn:Ei; simpl.
    2:{ intros ->. simpl in Em. injection Em as <-. discriminate. }
    assert (stdin_data <> JObj []) as Hne.
    { intros ->. simpl in Em. injection Em as <-. simpl in Ed.
      injection Ed as <-. discriminate. }
    destruct (Py.str_in "Opus" dn) as [[|]|]; simpl; [| |exact Hne].
    + destruct (Py.str_in "4.5" dn) as [[|]|]; simpl; [auto| |exact Hne].
      destruct (Py.str_in "4-5" id) as [[|]|]; simpl; auto.
    + destruct (Py.str_in "Sonnet" dn) as [[|]|]; simpl; auto.
  - destruct (Py.contains "opus" (Py.lower claude_model_env)); auto.
Qed.

(** X27. With a display name that is a non-empty string, the
    environment variable is not consulted, a name that does not contain
    "Opus" in exactly this spelling is labelled "Sonnet 4" whatever the
    model is, and "Opus 4.5" is chosen exactly when the name contains
    "Opus" and the name contains "4.5" or the identifier contains
    "4-5". *)
Theorem X27_label_from_display_name
    (fields mfields : list (string * json)) (model_name model_id : string)
    (claude_model_env : string)
    (Hmodel : Py.lookup "model" fields = Some (JObj mfields))
    (Hname : Py.lookup "display_name" mfields = Some (JStr model_name))
    (Hnonempty : model_name <> "")
    (Hid : default (JStr "") (Py.lookup "id" mfields) = JStr model_id) :
  current_model (JObj fields) claude_model_env =
  Ok (if Py.contains "Opus" model_name then
        if Py.contains "4.5" model_name || Py.contains "4-5" model_id
        then "Opus 4.5" else "Opus 4"
      else "Sonnet 4").
Proof.
  unfold current_model, Py.get_or, Py.get, bind. rewrite Hmodel. simpl.
  rewrite Hname. simpl. rewrite Hid.
  apply String.eqb_neq in Hnonempty. rewrite Hnonempty. simpl.
  destruct (Py.contains "Opus" model_name); [|reflexivity].
  destruct (Py.contains "4.5" model_name); [reflexivity|].
  destruct (Py.contains "4-5" model_id); reflexivity.
Qed.

Lemma X27_label_from_display_name_witness :
  current_model (stdin_with_model "Claude Haiku" "claude-haiku-4-5") "opus"
  = Ok "Sonnet 4".
Proof.
  apply (X27_label_from_display_name _
           [("display_name", JStr "Claude Haiku");
            ("id", JStr "claude-haiku-4-5")]
           "Claude Haiku" "claude-haiku-4-5" "opus");
    try reflexivity. discriminate.
Defined.

(** ** More on the timestamp parser and the command test *)

(** X28. Everything from the first dot on is ignored by the timestamp
    parser: two timestamps that agree before their first dot parse to the
    same value, whatever fraction, offset or other text follows it. *)
Theorem X28_text_after_dot_ignored
    (off : Z) (base rest1 rest2 : string)
    (Hbase : Py.contains "." base = false) :
  _parse_timestamp_str off (base ++ String "." rest1) =
  _parse_timestamp_str off (base ++ String "." rest2).
Proof.
  assert (forall rest,
            _parse_timestamp_str off (base ++ String "." rest) =
            (dt ← Datetime.fromisoformat
                    (Py.replace_char "Z" "+00:00" (base ++ "Z"));
             Some (inject_Z (Datetime.timestamp off dt)))) as H.
  { intros rest. unfold _parse_timestamp_str.
    rewrite contains_dot_app, (split_head_dot _ _ Hbase).
    destruct (String.eqb_spec (base ++ String "." rest) "") as [E|_].
    { destruct base; [rewrite app_nil in E | rewrite app_cons in E];
        discriminate. }
    destruct (String.eqb_spec (base ++ String "." rest) "null") as [E|_];
      [|reflexivity].
    pose proof (contains_dot_app base rest) as Hd.
    rewrite E in Hd. discriminate. }
  rewrite (H rest1), (H rest2). reflexivity.
Qed.

Lemma X28_text_after_dot_witness :
  Py.contains "." "2024-01-01T12:00:00" = false /\
  _parse_timestamp_str 0 ("2024-01-01T12:00:00" ++ String "." "500+05:00") =
  _parse_timestamp_str 0 ("2024-01-01T12:00:00" ++ String "." "999Z").
Proof.
  split; [reflexivity|].
  exact (X28_text_after_dot_ignored 0 "2024-01-01T12:00:00" "500+05:00"
           "999Z" eq_refl).
Defined.

(** X29. The command test of a list content stops at the first block
    that decides it: when the blocks up to some point already give a
    verdict or raise, the blocks after them are not looked at, so they
    can neither change the verdict nor raise; when they give no marker,
    the result is that of the remaining blocks. *)
Theorem X29_command_test_stops_early (l1 l2 : list json) :
  _is_command_message (JArr (l1 ++ l2)) =
  match _is_command_items l1 with
  | Ok true => Ok true
  | Ok false => _is_command_items l2
  | Raised => Raised
  end.
Proof.
  simpl. induction l1 as [|item l1 IH]; [reflexivity|].
  simpl.
  destruct (Py.is_dict item); [|exact IH].
  destruct (Py.get item "type") as [ty|]; simpl; [|reflexivity].
  destruct (Py.eq_str ty "text"); [|exact IH].
  destruct (Py.get_or item "text" (JStr "")) as [text|]; simpl;
    [|reflexivity].
  destruct (Py.str_in CMD_NAME text) as [[|]|]; simpl; try reflexivity.
  destruct (Py.str_in CMD_STDOUT text) as [[|]|]; simpl; try reflexivity.
  exact IH.
Qed.
